(** * Verification of the Dozy relay firmware (dozy.ino)

    Shallow embedding of the control core of [src/dozy.ino]: the global
    variables of the sketch form the record [Dev]; every C function becomes
    a computation in a small reader/state/writer monad [M]:
    - the reader part [Env] is what the hardware and the libraries answer
      during one pass of [loop()] ([millis()], [digitalRead(SWITCH)],
      [WiFi.status()], results of [mqttClient.connect], messages delivered by
      [mqttClient.loop()], callbacks fired inside [wifiManager.process()] and
      [ArduinoOTA.handle()]);
    - the state part is [Dev];
    - the writer part is the list of calls the code makes to external
      collaborators ([Event]): publishes, portal start/stop, OTA begin,
      connect attempts, [ESP.restart()], ... *)

From Stdlib Require Import ZArith List String Ascii Bool Lia.
Import ListNotations.
Open Scope Z_scope.

(** ** Constants of the sketch *)

Definition CONFIG_TIMEOUT_MS : Z := 300000.
Definition OTA_TIMEOUT_MS : Z := 300000.
Definition MANUAL_SETUP_MAX_DELAY_MS : Z := 500.
Definition MANUAL_SETUP_COUNTER : Z := 5.

Definition CMD_ON : string := "1".
Definition CMD_OFF : string := "0".
Definition CMD_SETUP : string := "set".
Definition CMD_OTA : string := "ota".
Definition CMD_RESET : string := "rst".

(** [unsigned long] arithmetic on the ESP8266: 32 bits. *)
Definition ULONG_MOD : Z := 2 ^ 32.

(** [a - b] on two [unsigned long] values. *)
Definition usub (a b : Z) : Z := (a - b) mod ULONG_MOD.

(** A value of the 32-bit [int] type: signed overflow of [++] wraps around in
    two's complement, as the ESP8266 compiler does. *)
Definition to_int (z : Z) : Z := (z + 2 ^ 31) mod 2 ^ 32 - 2 ^ 31.

(** Pin levels: [true] is HIGH, [false] is LOW. *)
Definition HIGH : bool := true.
Definition LOW : bool := false.

(** ** Global state of the sketch *)

Record Dev := mkDev {
  offline : bool;
  mqttConnected : bool;            (* what mqttClient.connected() reports *)
  wifiManagerSetupRunning : bool;
  wifiManagerSetupStart : Z;
  otaRunning : bool;
  otaStart : Z;
  restart : bool;
  mqttConnectAttempt : Z;
  mqttConnectDelay : Z;
  momentarySwitch : bool;
  sState : bool;
  lState : bool;
  gpioTrigger : bool;
  manualSetupActivatorTime : Z;
  manualSetupModeCounter : Z;
  pinRelay : bool;                 (* output level of GPIO RELAY *)
  pinGreen : bool;                 (* output level of GPIO LED_GREEN (LOW = lit) *)
  pinRed : bool                    (* output level of GPIO LED_RED (LOW = lit) *)
}.

(** Setters, one per global. *)
Definition set_offline v d := mkDev v d.(mqttConnected) d.(wifiManagerSetupRunning) d.(wifiManagerSetupStart) d.(otaRunning) d.(otaStart) d.(restart) d.(mqttConnectAttempt) d.(mqttConnectDelay) d.(momentarySwitch) d.(sState) d.(lState) d.(gpioTrigger) d.(manualSetupActivatorTime) d.(manualSetupModeCounter) d.(pinRelay) d.(pinGreen) d.(pinRed).
Definition set_mqttConnected v d := mkDev d.(offline) v d.(wifiManagerSetupRunning) d.(wifiManagerSetupStart) d.(otaRunning) d.(otaStart) d.(restart) d.(mqttConnectAttempt) d.(mqttConnectDelay) d.(momentarySwitch) d.(sState) d.(lState) d.(gpioTrigger) d.(manualSetupActivatorTime) d.(manualSetupModeCounter) d.(pinRelay) d.(pinGreen) d.(pinRed).
Definition set_wifiManagerSetupRunning v d := mkDev d.(offline) d.(mqttConnected) v d.(wifiManagerSetupStart) d.(otaRunning) d.(otaStart) d.(restart) d.(mqttConnectAttempt) d.(mqttConnectDelay) d.(momentarySwitch) d.(sState) d.(lState) d.(gpioTrigger) d.(manualSetupActivatorTime) d.(manualSetupModeCounter) d.(pinRelay) d.(pinGreen) d.(pinRed).
Definition set_wifiManagerSetupStart v d := mkDev d.(offline) d.(mqttConnected) d.(wifiManagerSetupRunning) v d.(otaRunning) d.(otaStart) d.(restart) d.(mqttConnectAttempt) d.(mqttConnectDelay) d.(momentarySwitch) d.(sState) d.(lState) d.(gpioTrigger) d.(manualSetupActivatorTime) d.(manualSetupModeCounter) d.(pinRelay) d.(pinGreen) d.(pinRed).
Definition set_otaRunning v d := mkDev d.(offline) d.(mqttConnected) d.(wifiManagerSetupRunning) d.(wifiManagerSetupStart) v d.(otaStart) d.(restart) d.(mqttConnectAttempt) d.(mqttConnectDelay) d.(momentarySwitch) d.(sState) d.(lState) d.(gpioTrigger) d.(manualSetupActivatorTime) d.(manualSetupModeCounter) d.(pinRelay) d.(pinGreen) d.(pinRed).
Definition set_otaStart v d := mkDev d.(offline) d.(mqttConnected) d.(wifiManagerSetupRunning) d.(wifiManagerSetupStart) d.(otaRunning) v d.(restart) d.(mqttConnectAttempt) d.(mqttConnectDelay) d.(momentarySwitch) d.(sState) d.(lState) d.(gpioTrigger) d.(manualSetupActivatorTime) d.(manualSetupModeCounter) d.(pinRelay) d.(pinGreen) d.(pinRed).
Definition set_restart v d := mkDev d.(offline) d.(mqttConnected) d.(wifiManagerSetupRunning) d.(wifiManagerSetupStart) d.(otaRunning) d.(otaStart) v d.(mqttConnectAttempt) d.(mqttConnectDelay) d.(momentarySwitch) d.(sState) d.(lState) d.(gpioTrigger) d.(manualSetupActivatorTime) d.(manualSetupModeCounter) d.(pinRelay) d.(pinGreen) d.(pinRed).
Definition set_mqttConnectAttempt v d := mkDev d.(offline) d.(mqttConnected) d.(wifiManagerSetupRunning) d.(wifiManagerSetupStart) d.(otaRunning) d.(otaStart) d.(restart) v d.(mqttConnectDelay) d.(momentarySwitch) d.(sState) d.(lState) d.(gpioTrigger) d.(manualSetupActivatorTime) d.(manualSetupModeCounter) d.(pinRelay) d.(pinGreen) d.(pinRed).
Definition set_mqttConnectDelay v d := mkDev d.(offline) d.(mqttConnected) d.(wifiManagerSetupRunning) d.(wifiManagerSetupStart) d.(otaRunning) d.(otaStart) d.(restart) d.(mqttConnectAttempt) v d.(momentarySwitch) d.(sState) d.(lState) d.(gpioTrigger) d.(manualSetupActivatorTime) d.(manualSetupModeCounter) d.(pinRelay) d.(pinGreen) d.(pinRed).
Definition set_momentarySwitch v d := mkDev d.(offline) d.(mqttConnected) d.(wifiManagerSetupRunning) d.(wifiManagerSetupStart) d.(otaRunning) d.(otaStart) d.(restart) d.(mqttConnectAttempt) d.(mqttConnectDelay) v d.(sState) d.(lState) d.(gpioTrigger) d.(manualSetupActivatorTime) d.(manualSetupModeCounter) d.(pinRelay) d.(pinGreen) d.(pinRed).
Definition set_sState v d := mkDev d.(offline) d.(mqttConnected) d.(wifiManagerSetupRunning) d.(wifiManagerSetupStart) d.(otaRunning) d.(otaStart) d.(restart) d.(mqttConnectAttempt) d.(mqttConnectDelay) d.(momentarySwitch) v d.(lState) d.(gpioTrigger) d.(manualSetupActivatorTime) d.(manualSetupModeCounter) d.(pinRelay) d.(pinGreen) d.(pinRed).
Definition set_lState v d := mkDev d.(offline) d.(mqttConnected) d.(wifiManagerSetupRunning) d.(wifiManagerSetupStart) d.(otaRunning) d.(otaStart) d.(restart) d.(mqttConnectAttempt) d.(mqttConnectDelay) d.(momentarySwitch) d.(sState) v d.(gpioTrigger) d.(manualSetupActivatorTime) d.(manualSetupModeCounter) d.(pinRelay) d.(pinGreen) d.(pinRed).
Definition set_gpioTrigger v d := mkDev d.(offline) d.(mqttConnected) d.(wifiManagerSetupRunning) d.(wifiManagerSetupStart) d.(otaRunning) d.(otaStart) d.(restart) d.(mqttConnectAttempt) d.(mqttConnectDelay) d.(momentarySwitch) d.(sState) d.(lState) v d.(manualSetupActivatorTime) d.(manualSetupModeCounter) d.(pinRelay) d.(pinGreen) d.(pinRed).
Definition set_manualSetupActivatorTime v d := mkDev d.(offline) d.(mqttConnected) d.(wifiManagerSetupRunning) d.(wifiManagerSetupStart) d.(otaRunning) d.(otaStart) d.(restart) d.(mqttConnectAttempt) d.(mqttConnectDelay) d.(momentarySwitch) d.(sState) d.(lState) d.(gpioTrigger) v d.(manualSetupModeCounter) d.(pinRelay) d.(pinGreen) d.(pinRed).
Definition set_manualSetupModeCounter v d := mkDev d.(offline) d.(mqttConnected) d.(wifiManagerSetupRunning) d.(wifiManagerSetupStart) d.(otaRunning) d.(otaStart) d.(restart) d.(mqttConnectAttempt) d.(mqttConnectDelay) d.(momentarySwitch) d.(sState) d.(lState) d.(gpioTrigger) d.(manualSetupActivatorTime) v d.(pinRelay) d.(pinGreen) d.(pinRed).
Definition set_pinRelay v d := mkDev d.(offline) d.(mqttConnected) d.(wifiManagerSetupRunning) d.(wifiManagerSetupStart) d.(otaRunning) d.(otaStart) d.(restart) d.(mqttConnectAttempt) d.(mqttConnectDelay) d.(momentarySwitch) d.(sState) d.(lState) d.(gpioTrigger) d.(manualSetupActivatorTime) d.(manualSetupModeCounter) v d.(pinGreen) d.(pinRed).
Definition set_pinGreen v d := mkDev d.(offline) d.(mqttConnected) d.(wifiManagerSetupRunning) d.(wifiManagerSetupStart) d.(otaRunning) d.(otaStart) d.(restart) d.(mqttConnectAttempt) d.(mqttConnectDelay) d.(momentarySwitch) d.(sState) d.(lState) d.(gpioTrigger) d.(manualSetupActivatorTime) d.(manualSetupModeCounter) d.(pinRelay) v d.(pinRed).
Definition set_pinRed v d := mkDev d.(offline) d.(mqttConnected) d.(wifiManagerSetupRunning) d.(wifiManagerSetupStart) d.(otaRunning) d.(otaStart) d.(restart) d.(mqttConnectAttempt) d.(mqttConnectDelay) d.(momentarySwitch) d.(sState) d.(lState) d.(gpioTrigger) d.(manualSetupActivatorTime) d.(manualSetupModeCounter) d.(pinRelay) d.(pinGreen) v.

(** Power-on state: C++ zero-initialisation of the globals together with
    their initialisers ([offline = true], ...); GPIO output latches reset to
    LOW. *)
Definition power_on : Dev :=
  mkDev true false false 0 false 0 false 0 0 false false false false 0 0
        LOW LOW LOW.

(** ** External collaborators *)

(** Callback [wifiManager.process()] may fire during one call: the save
    callback of the non-blocking portal (the access-point callback is fired
    by [startConfigPortal()] and [autoConnect()] themselves). *)
Inductive WmCallback :=
| CbSaveParams (momentary : bool). (* saveParamsCallback, with the portal's checkbox value *)

Record Env := mkEnv {
  millis : Z;                      (* millis(), in [0, 2^32) *)
  switchLow : bool;                (* digitalRead(SWITCH) == LOW *)
  configMomentary : option bool;   (* momentary_switch stored in /config.json, read by setup *)
  wmCallback : option WmCallback;  (* callback fired inside wifiManager.process() *)
  wifiConnected : bool;            (* WiFi.status() == WL_CONNECTED; in setup(), whether
                                      autoConnect() joined the saved network *)
  mqttLost : bool;                 (* the MQTT transport dropped before this pass *)
  connectOk : bool;                (* result of mqttClient.connect(...) *)
  inbound : list string;           (* payloads delivered by mqttClient.loop() *)
  otaProgress : nat                (* onProgress callbacks fired inside ArduinoOTA.handle() *)
}.

Inductive Event :=
| EvPublish (payload : string)     (* mqttClient.publish(mqttOutTopic, payload, true) *)
| EvAutoConnect                    (* wifiManager.autoConnect(...) *)
| EvStartConfigPortal              (* wifiManager.startConfigPortal(...) *)
| EvStopConfigPortal               (* wifiManager.stopConfigPortal() *)
| EvWmProcess                      (* wifiManager.process() *)
| EvTickerAttach (ms : Z)          (* ledTicker.attach_ms(ms, ledTick) *)
| EvOtaBegin                       (* ArduinoOTA.begin() *)
| EvOtaHandle                      (* ArduinoOTA.handle() *)
| EvMqttConnect                    (* mqttClient.connect(...) *)
| EvMqttSubscribe                  (* mqttClient.subscribe(mqttInTopic) *)
| EvMqttLoop                       (* mqttClient.loop() *)
| EvRestart.                       (* ESP.restart() *)

(** ** The monad *)

Definition M (A : Type) : Type := Env -> Dev -> A * Dev * list Event.

Definition ret {A} (a : A) : M A := fun _ d => (a, d, []).
Definition bind {A B} (m : M A) (k : A -> M B) : M B :=
  fun e d =>
    let '(a, d1, l1) := m e d in
    let '(b, d2, l2) := k a e d1 in
    (b, d2, l1 ++ l2).

Declare Scope dozy_scope.
Notation "x <- c1 ;; c2" := (bind c1 (fun x => c2))
  (at level 61, c1 at next level, right associativity) : dozy_scope.
Notation "c1 ;; c2" := (bind c1 (fun _ => c2))
  (at level 61, right associativity) : dozy_scope.
Open Scope dozy_scope.

Definition get {A} (f : Dev -> A) : M A := fun _ d => (f d, d, []).
Definition ask {A} (f : Env -> A) : M A := fun e d => (f e, d, []).
Definition modify (f : Dev -> Dev) : M unit := fun _ d => (tt, f d, []).
Definition emit (ev : Event) : M unit := fun _ d => (tt, d, [ev]).
Definition skip : M unit := ret tt.
Definition when (b : bool) (m : M unit) : M unit := if b then m else skip.

Fixpoint repeatM (n : nat) (m : M unit) : M unit :=
  match n with O => skip | S n' => m ;; repeatM n' m end.

Fixpoint forEach {A} (f : A -> M unit) (xs : list A) : M unit :=
  match xs with [] => skip | x :: xs' => f x ;; forEach f xs' end.

(** ** Strings *)

(** Arduino [String::startsWith(s2)]: false when [s2] is longer, otherwise
    [strncmp] over the length of [s2]. *)
Fixpoint startsWith (s pre : string) : bool :=
  match pre, s with
  | EmptyString, _ => true
  | String p pre', String c s' => Ascii.eqb c p && startsWith s' pre'
  | String _ _, EmptyString => false
  end.

(** [strncpy(payloadCopy, payload, n); payloadCopy[n] = 0;
    String(payloadCopy)]: at most [n] characters, cut at the first NUL. *)
Fixpoint copyPayload (n : nat) (s : string) : string :=
  match n, s with
  | O, _ => EmptyString
  | _, EmptyString => EmptyString
  | S n', String c s' =>
      if Ascii.eqb c "000"%char then EmptyString else String c (copyPayload n' s')
  end.

(** ** The sketch's functions *)

(** mqttCommunicate(): publishes '1'/'0', followed by '.' when gpioTrigger
    is set, and consumes gpioTrigger, only when online and connected. *)
Definition mqttCommunicate : M unit :=
  off <- get offline ;;
  conn <- get mqttConnected ;;
  when (negb off && conn)
    (l <- get lState ;;
     t <- get gpioTrigger ;;
     modify (set_gpioTrigger false) ;;
     emit (EvPublish (String (if l then "1"%char else "0"%char)
                             (if t then "." else EmptyString)))).

Definition enableL : M unit :=
  modify (set_pinRelay HIGH) ;;     (* turn on *)
  modify (set_pinGreen LOW) ;;      (* turn on *)
  modify (set_lState true) ;;
  mqttCommunicate.

Definition disableL : M unit :=
  modify (set_pinRelay LOW) ;;      (* turn off *)
  modify (set_pinGreen HIGH) ;;     (* turn off *)
  modify (set_lState false) ;;
  mqttCommunicate.

Definition wifiManagerSetupStopped : M unit :=
  modify (set_restart true).  (* don't restart immediately *)

(** The access-point callback registered with [wifiManager.setAPCallback]. *)
Definition wifiManagerSetupStarted : M unit :=
  emit (EvTickerAttach 1000) ;;    (* start slow blinking *)
  modify (set_wifiManagerSetupRunning true) ;;
  now <- ask millis ;;
  modify (set_wifiManagerSetupStart now).

(** startWifiManager(onDemand). The configuration-file reading of the
    [!onDemand] branch is kept for the one global of the core it sets,
    momentarySwitch; the other parameters are strings for the portal (their
    reading is modelled by [loadConfig] below). [startConfigPortal()] opens
    the access point and calls the access-point callback before returning;
    [autoConnect()] does so when it cannot join the saved network. *)
Definition startWifiManager (onDemand : bool) : M unit :=
  running <- get wifiManagerSetupRunning ;;
  if running then skip else
  (when (negb onDemand)
     (cfg <- ask configMomentary ;;
      match cfg with
      | Some m => modify (set_momentarySwitch m)
      | None => skip
      end) ;;
   if onDemand then (emit EvStartConfigPortal ;; wifiManagerSetupStarted)
   else (emit EvAutoConnect ;;
         up <- ask wifiConnected ;;
         when (negb up) wifiManagerSetupStarted)).

(** saveParamsCallback(): copies the portal's values (the momentary-switch
    checkbox being the one the core reads), writes /config.json, then
    wifiManagerSetupStopped(). *)
Definition saveParamsCallback (momentary : bool) : M unit :=
  modify (set_momentarySwitch momentary) ;;
  wifiManagerSetupStopped.

Definition ledTick : M unit :=
  r <- get pinRed ;;
  modify (set_pinRed (negb r)).

(** The ArduinoOTA.onProgress lambda installed by setup(). *)
Definition otaOnProgress : M unit :=
  r <- get pinRed ;;
  if r then (modify (set_pinRed LOW) ;; modify (set_pinGreen HIGH))
  else (modify (set_pinRed HIGH) ;; modify (set_pinGreen LOW)).

Definition setup : M unit :=
  modify (set_pinRed HIGH) ;;       (* turn it off *)
  modify (set_pinGreen HIGH) ;;     (* turn it off *)
  sw <- ask switchLow ;;
  modify (set_sState sw) ;;
  modify (set_gpioTrigger false) ;;
  modify (set_manualSetupModeCounter 0) ;;
  startWifiManager false.

(** The gesture block of gpioLoop (lines 248-258), run when sChanged. *)
Definition manualSetupActivator : M unit :=
  now <- ask millis ;;
  last <- get manualSetupActivatorTime ;;
  (if usub now last <? MANUAL_SETUP_MAX_DELAY_MS then
     c <- get manualSetupModeCounter ;;
     modify (set_manualSetupModeCounter (to_int (c + 1))) ;;
     c' <- get manualSetupModeCounter ;;
     when (c' =? MANUAL_SETUP_COUNTER) (startWifiManager true)
   else modify (set_manualSetupModeCounter 0)) ;;
  now' <- ask millis ;;
  modify (set_manualSetupActivatorTime now').

(** First block of gpioLoop (lines 211-222): sample the switch, record the
    new level in sState and report whether it changed. *)
Definition readSwitch : M bool :=
  low <- ask switchLow ;;
  s <- get sState ;;
  modify (set_sState low) ;;
  ret (if low then negb s else s).

(** Second block of gpioLoop (lines 224-246), run when sChanged. *)
Definition switchAction : M unit :=
  modify (set_gpioTrigger true) ;;
  mom <- get momentarySwitch ;;
  if mom then
    (* we only trigger relay on switch press. on release - just mqtt communication *)
    (s <- get sState ;;
     if s then (l <- get lState ;; if l then disableL else enableL)
     else mqttCommunicate)
  else
    (* otherwise we trigger relay on each press/release, but making two mqtt
       communications: first with '.' in the end, then without *)
    (l <- get lState ;; (if l then disableL else enableL) ;;
     mqttCommunicate).

Definition gpioLoop : M unit :=
  sChanged <- readSwitch ;;
  when sChanged switchAction ;;
  when sChanged manualSetupActivator.

(** wifimanagerLoop(). mDNS resolution and mqttClient.setServer are left
    out: they touch no state of the core. *)
Definition wifimanagerLoop : M unit :=
  emit EvWmProcess ;;
  cb <- ask wmCallback ;;
  match cb with
  | Some (CbSaveParams m) => saveParamsCallback m
  | None => skip
  end ;;
  running <- get wifiManagerSetupRunning ;;
  (if running then
     now <- ask millis ;;
     st <- get wifiManagerSetupStart ;;
     when (CONFIG_TIMEOUT_MS <? usub now st)
       (emit EvStopConfigPortal ;; wifiManagerSetupStopped)
   else
     off <- get offline ;;
     modify (set_pinRed (if off then LOW else HIGH))) ;;
  up <- ask wifiConnected ;;
  modify (set_offline (negb up)).

(** [char payloadCopy[10]; int _length = std::min<unsigned int>(length, 9);
    strncpy(payloadCopy, payload, _length); payloadCopy[_length] = 0x0;
    String cmd = String(payloadCopy);] *)
Definition payloadCommand (payload : string) : string :=
  copyPayload (Nat.min (String.length payload) 9) payload.

Definition mqttCallback (payload : string) : M unit :=
  let cmd := payloadCommand payload in
  when (startsWith cmd CMD_SETUP) (startWifiManager true) ;;
  when (startsWith cmd CMD_RESET) (modify (set_restart true)) ;;
  when (startsWith cmd CMD_OTA)
    (now <- ask millis ;;
     modify (set_otaStart now) ;;
     modify (set_otaRunning true) ;;
     emit (EvTickerAttach 300) ;;   (* start fast blinking *)
     emit EvOtaBegin) ;;
  when (startsWith cmd CMD_ON) enableL ;;
  when (startsWith cmd CMD_OFF) disableL.

Definition mqttReconnect : M bool :=
  conn <- get mqttConnected ;;
  if conn then ret false else
  now <- ask millis ;;
  att <- get mqttConnectAttempt ;;
  dl <- get mqttConnectDelay ;;
  if dl <? usub now att then
    (* increase reconnect attempt delay by 1 second *)
    modify (set_mqttConnectDelay ((dl + 1000) mod ULONG_MOD)) ;;
    dl' <- get mqttConnectDelay ;;
    when (60000 <? dl') (modify (set_mqttConnectDelay 60000)) ;;
    modify (set_mqttConnectAttempt now) ;;
    emit EvMqttConnect ;;
    ok <- ask connectOk ;;
    if ok then
      modify (set_mqttConnected true) ;;
      emit EvMqttSubscribe ;;
      modify (set_mqttConnectDelay 0) ;;
      ret true
    else ret false
  else ret false.

Definition mqttLoop : M unit :=
  conn <- get mqttConnected ;;
  ok <- (if conn then ret true else mqttReconnect) ;;
  when ok
    (emit EvMqttLoop ;;
     msgs <- ask inbound ;;
     forEach mqttCallback msgs).

(** The update-mode branch of loop(): [ArduinoOTA.handle()], during which
    the onProgress callback may fire, then the update timeout check. *)
Definition otaTick : M unit :=
  emit EvOtaHandle ;;
  n <- ask otaProgress ;;
  repeatM n otaOnProgress ;;
  now <- ask millis ;;
  st <- get otaStart ;;
  when (OTA_TIMEOUT_MS <? usub now st) (modify (set_restart true)).

(** The normal branch of loop(): gpioLoop(), wifimanagerLoop(), then
    mqttLoop() when online ([delay(20)] has no effect on the state). *)
Definition normalTick : M unit :=
  gpioLoop ;;
  wifimanagerLoop ;;
  off <- get offline ;;
  when (negb off) mqttLoop.

(** One pass of loop(). The transport state reported by
    mqttClient.connected() is refreshed first from the environment. *)
Definition loop : M unit :=
  lost <- ask mqttLost ;;
  (if lost then modify (set_mqttConnected false) else skip) ;;
  ota <- get otaRunning ;;
  (if ota then otaTick else normalTick) ;;
  r <- get restart ;;
  when r (emit EvRestart).

(** ** The configuration file /config.json *)

Local Open Scope string_scope.

(** The MQTT settings kept in the global char arrays [mqttServer],
    [mqttPort], [mqttClientName], [mqttUser], [mqttPassword], [mqttOutTopic],
    [mqttInTopic], and the flag [momentarySwitch]. *)
Record Config := mkConfig {
  cfgServer : string;
  cfgPort : string;
  cfgClientName : string;
  cfgUser : string;
  cfgPassword : string;
  cfgOutTopic : string;
  cfgInTopic : string;
  cfgMomentary : bool
}.

(** What the portal's WiFiManagerParameter objects hold ([getValue()]). *)
Record PortalValues := mkPortalValues {
  pvServer : string;
  pvPort : string;
  pvClientName : string;
  pvUser : string;
  pvPassword : string;
  pvOutTopic : string;
  pvInTopic : string;
  pvMomentary : string
}.

(** A flat JSON object with string values, as [serializeJson] writes it and
    [deserializeJson] reads it back. *)
Definition JsonDoc := list (string * string).

(** [json[key]] / [json.containsKey(key)]. *)
Fixpoint jsonLookup (k : string) (doc : JsonDoc) : option string :=
  match doc with
  | [] => None
  | (k', v) :: doc' => if String.eqb k k' then Some v else jsonLookup k doc'
  end.

(** A [const char*] read up to its terminating NUL. *)
Fixpoint cstring (s : string) : string :=
  match s with
  | EmptyString => EmptyString
  | String c s' => if Ascii.eqb c "000"%char then EmptyString else String c (cstring s')
  end.

Definition strlen (s : string) : nat := String.length (cstring s).

(** [strcmp("true", v) == 0]. *)
Definition isTrue (v : string) : bool := String.eqb (cstring v) "true".

(** Sizes of the global buffers: [char mqttPort[6]], the others [char x[40]]. *)
Definition FIELD_SIZE : nat := 40.
Definition PORT_SIZE : nat := 6.

(** [strcpy(dst, src)] into a [char dst[size]]: defined when [src] and its
    terminating NUL fit; [None] is the buffer overflow (undefined
    behaviour). *)
Definition strcpy (size : nat) (src : string) : option string :=
  if Nat.ltb (strlen src) size then Some (cstring src) else None.

(** saveParamsCallback(): [strcpy] each portal value into its global, parse
    the checkbox, then build the JSON document written to /config.json;
    [None] when a copy overflows its buffer. *)
Definition saveParamsConfig (pv : PortalValues) : option Config :=
  match strcpy FIELD_SIZE (pvServer pv), strcpy PORT_SIZE (pvPort pv),
        strcpy FIELD_SIZE (pvClientName pv), strcpy FIELD_SIZE (pvUser pv),
        strcpy FIELD_SIZE (pvPassword pv), strcpy FIELD_SIZE (pvOutTopic pv),
        strcpy FIELD_SIZE (pvInTopic pv) with
  | Some s, Some p, Some n, Some u, Some w, Some o, Some i =>
      Some (mkConfig s p n u w o i (isTrue (pvMomentary pv)))
  | _, _, _, _, _, _, _ => None
  end.

Definition configJson (c : Config) : JsonDoc :=
  [("mqtt_server", cfgServer c);
   ("mqtt_port", cfgPort c);
   ("mqtt_client_name", cfgClientName c);
   ("mqtt_user", cfgUser c);
   ("mqtt_password", cfgPassword c);
   ("mqtt_out_topic", cfgOutTopic c);
   ("mqtt_in_topic", cfgInTopic c);
   ("momentary_switch", if cfgMomentary c then "true" else "false")].

(** [if (json.containsKey(k) && strlen(json[k]) > 0) strcpy(dst, json[k]);]
    with [char dst[size]] holding [cur]. *)
Definition loadField (doc : JsonDoc) (k : string) (size : nat) (cur : string)
  : option string :=
  match jsonLookup k doc with
  | Some v => if Nat.ltb 0 (strlen v) then strcpy size v else Some cur
  | None => Some cur
  end.

Definition loadMomentary (doc : JsonDoc) (cur : bool) : bool :=
  match jsonLookup "momentary_switch" doc with
  | Some v => if Nat.ltb 0 (strlen v) then isTrue v else cur
  | None => cur
  end.

(** The reading part of startWifiManager(false). [mqttClientName] is first
    set to the access point name ["Dozy-" + String(ESP.getChipId(), HEX)],
    passed as [apName]. [file] is the parsed content of /config.json, [None]
    when LittleFS does not mount, the file is missing or cannot be opened, or
    [deserializeJson] reports an error: then nothing else is changed. The
    result is [None] when a [strcpy] overflows its buffer. *)
Definition loadConfig (apName : string) (file : option JsonDoc) (c : Config)
  : option Config :=
  match strcpy FIELD_SIZE apName with
  | None => None
  | Some n0 =>
      match file with
      | None => Some (mkConfig (cfgServer c) (cfgPort c) n0 (cfgUser c) (cfgPassword c)
                               (cfgOutTopic c) (cfgInTopic c) (cfgMomentary c))
      | Some doc =>
          match loadField doc "mqtt_server" FIELD_SIZE (cfgServer c),
                loadField doc "mqtt_port" PORT_SIZE (cfgPort c),
                loadField doc "mqtt_client_name" FIELD_SIZE n0,
                loadField doc "mqtt_user" FIELD_SIZE (cfgUser c),
                loadField doc "mqtt_password" FIELD_SIZE (cfgPassword c),
                loadField doc "mqtt_out_topic" FIELD_SIZE (cfgOutTopic c),
                loadField doc "mqtt_in_topic" FIELD_SIZE (cfgInTopic c) with
          | Some s, Some p, Some n, Some u, Some w, Some o, Some i =>
              Some (mkConfig s p n u w o i (loadMomentary doc (cfgMomentary c)))
          | _, _, _, _, _, _, _ => None
          end
      end
  end.

Local Close Scope string_scope.

(** ** Running the model *)

Definition final_state {A} (m : M A) (e : Env) (d : Dev) : Dev :=
  let '(_, d', _) := m e d in d'.
Definition trace {A} (m : M A) (e : Env) (d : Dev) : list Event :=
  let '(_, _, l) := m e d in l.

Definition publishes (l : list Event) : list string :=
  flat_map (fun ev => match ev with EvPublish p => [p] | _ => [] end) l.

Definition is_start_portal (ev : Event) : bool :=
  match ev with EvStartConfigPortal => true | _ => false end.
Definition portal_starts (l : list Event) : nat :=
  List.length (filter is_start_portal l).

(** An environment in which nothing happens besides the clock and the
    switch level. *)
Definition quiet_env (t : Z) (low : bool) : Env :=
  mkEnv t low None None false false false [] 0.

Definition with_clock_switch (e : Env) (t : Z) (low : bool) : Env :=
  mkEnv t low e.(configMomentary) e.(wmCallback) e.(wifiConnected)
        e.(mqttLost) e.(connectOk) e.(inbound) e.(otaProgress).

(** Drive gpioLoop with a switch level opposite to the recorded one, so
    that the pass sees a debounced transition at time [t]. *)
Definition transition_at (t : Z) : M unit :=
  fun e d => gpioLoop (with_clock_switch e t (negb d.(sState))) d.

Fixpoint transitions (ts : list Z) : M unit :=
  match ts with [] => skip | t :: ts' => transition_at t ;; transitions ts' end.

Definition result {A} (m : M A) (e : Env) (d : Dev) : A :=
  let '(a, _, _) := m e d in a.

Definition online (d : Dev) : bool := negb (offline d) && mqttConnected d.

Definition stateMsg (l t : bool) : string :=
  String (if l then "1"%char else "0"%char) (if t then "." else EmptyString).

Definition press (e : Env) (t : Z) : Env := with_clock_switch e t true.
Definition release (e : Env) (t : Z) : Env := with_clock_switch e t false.

(** The five commands, in the order mqttCallback tests them. *)
Inductive Command := EnterProvisioning | Reset | EnterUpdate | TurnOn | TurnOff.

Definition commandPrefix (c : Command) : string :=
  match c with
  | EnterProvisioning => CMD_SETUP
  | Reset => CMD_RESET
  | EnterUpdate => CMD_OTA
  | TurnOn => CMD_ON
  | TurnOff => CMD_OFF
  end.

(** The commands whose [if (cmd.startsWith(...))] guard holds in
    mqttCallback, in the order of the code. *)
Definition matchedCommands (payload : string) : list Command :=
  filter (fun c => startsWith (payloadCommand payload) (commandPrefix c))
         [EnterProvisioning; Reset; EnterUpdate; TurnOn; TurnOff].

(** The dispatcher as the spec words it (section 4.6): prefix matching,
    first match wins, in the fixed order {EnterProvisioning, Reset,
    EnterUpdate, TurnOn, TurnOff}; [None] is Unknown. *)
Definition classify_spec (payload : string) : option Command :=
  if startsWith payload "set" then Some EnterProvisioning
  else if startsWith payload "rst" then Some Reset
  else if startsWith payload "ota" then Some EnterUpdate
  else if startsWith payload "1" then Some TurnOn
  else if startsWith payload "0" then Some TurnOff
  else None.

Definition option_list {A} (o : option A) : list A :=
  match o with Some a => [a] | None => [] end.

(** Successive calls of one function of the sketch, each seeing its own
    environment (a later value of millis() and of the peripherals). *)
Fixpoint steps {A} (m : M A) (es : list Env) (d : Dev) : Dev * list Event :=
  match es with
  | [] => (d, [])
  | e :: es' =>
      let '(d', l) := steps m es' (final_state m e d) in (d', trace m e d ++ l)
  end.

Definition is_connect (ev : Event) : bool :=
  match ev with EvMqttConnect => true | _ => false end.
Definition connect_attempts (l : list Event) : nat :=
  List.length (filter is_connect l).

(** The events that mark the phases of a tick: [wifiManager.process()],
    the provisioning timeout's [stopConfigPortal()], and [ESP.restart()]. *)
Definition tick_marker (ev : Event) : bool :=
  match ev with EvWmProcess | EvStopConfigPortal | EvRestart => true | _ => false end.

Definition is_restart (ev : Event) : bool :=
  match ev with EvRestart => true | _ => false end.

(** The pass of loop() at which [ESP.restart()] is called, if any, over
    successive passes. *)
Fixpoint first_restart (es : list Env) (d : Dev) : option Env :=
  match es with
  | [] => None
  | e :: es' =>
      if existsb is_restart (trace loop e d) then Some e
      else first_restart es' (final_state loop e d)
  end.

(** The relay output follows lState: [digitalWrite(RELAY, HIGH)] exactly
    when lState. *)
Definition relay_inv (d : Dev) : Prop := pinRelay d = lState d.

(** The green LED (active low) is lit exactly when lState. *)
Definition green_inv (d : Dev) : Prop := pinGreen d = negb (lState d).

(** The mode flags [wifiManagerSetupRunning], [otaRunning] and [restart]
    are at least [w], [o] and [r]. *)
Definition mode_flags (w o r : bool) (d : Dev) : Prop :=
  (w = true -> wifiManagerSetupRunning d = true) /\
  (o = true -> otaRunning d = true) /\
  (r = true -> restart d = true).

(** The reconnect back-off stays within [0, 60000] ms. *)
Definition backoff_bounded (d : Dev) : Prop := 0 <= mqttConnectDelay d <= 60000.

(** The payloads mqttCommunicate can publish. *)
Definition state_payload (ev : Event) : Prop :=
  match ev with
  | EvPublish p => In p ["0"; "1"; "0."; "1."]%string
  | _ => True
  end.

(** 1 while a configuration portal is running, 0 otherwise. *)
Definition portal_level (d : Dev) : nat := if wifiManagerSetupRunning d then 1 else 0.

(** [m] starts the on-demand portal only when none is running, leaves a
    portal running once started, and never clears wifiManagerSetupRunning. *)
Definition portal_once {A} (m : M A) : Prop :=
  forall e d,
    (portal_level d + portal_starts (trace m e d) <= portal_level (final_state m e d))%nat.

(** The calls on the MQTT client that need a broker session:
    [connect], [subscribe] and [loop]. *)
Definition mqtt_session_event (ev : Event) : bool :=
  match ev with EvMqttConnect | EvMqttSubscribe | EvMqttLoop => true | _ => false end.

(** ** Lemmas about the model *)

Ltac unfold_dozy :=
  unfold final_state, trace, transition_at, with_clock_switch, loop, otaTick, normalTick,
    gpioLoop, readSwitch, switchAction, manualSetupActivator, wifimanagerLoop, mqttLoop, mqttReconnect,
    mqttCallback, enableL, disableL, mqttCommunicate, startWifiManager,
    wifiManagerSetupStopped, wifiManagerSetupStarted, saveParamsCallback,
    otaOnProgress, ledTick, setup, when, skip, get, ask, modify, emit, bind, ret
    in *; cbn in *.

Ltac case_bool b :=
  lazymatch b with
  | ?x && ?y => first [case_bool x | case_bool y]
  | ?x || ?y => first [case_bool x | case_bool y]
  | negb ?x => case_bool x
  | true => fail
  | false => fail
  | context [if _ then _ else _] => fail
  | _ => lazymatch type of b with
         | bool => destruct b eqn:?; cbn
         end
  end.

Ltac case_ifs :=
  repeat match goal with
  | |- context [if ?b then _ else _] => case_bool b
  end.


Lemma final_bind {A B} (m : M A) (k : A -> M B) e d :
  final_state (bind m k) e d = final_state (k (result m e d)) e (final_state m e d).
Proof.
  unfold final_state, result, bind. destruct (m e d) as [[a d1] l1].
  destruct (k a e d1) as [[b d2] l2]. reflexivity.
Qed.

Lemma trace_bind {A B} (m : M A) (k : A -> M B) e d :
  trace (bind m k) e d =
  trace m e d ++ trace (k (result m e d)) e (final_state m e d).
Proof.
  unfold trace, final_state, result, bind. destruct (m e d) as [[a d1] l1].
  destruct (k a e d1) as [[b d2] l2]. reflexivity.
Qed.

Lemma result_bind {A B} (m : M A) (k : A -> M B) e d :
  result (bind m k) e d = result (k (result m e d)) e (final_state m e d).
Proof.
  unfold final_state, result, bind. destruct (m e d) as [[a d1] l1].
  destruct (k a e d1) as [[b d2] l2]. reflexivity.
Qed.

Lemma mqttCommunicate_final e d :
  final_state mqttCommunicate e d =
  if online d then set_gpioTrigger false d else d.
Proof. unfold online; destruct d as [[] [] ? ? ? ? ? ? ? ? ? ? ? ? ? ? ? ?]; reflexivity. Qed.

Lemma mqttCommunicate_trace e d :
  trace mqttCommunicate e d =
  if online d then [EvPublish (stateMsg (lState d) (gpioTrigger d))] else [].
Proof. unfold online; destruct d as [[] [] ? ? ? ? ? ? ? ? ? ? ? ? ? ? ? ?]; reflexivity. Qed.

Lemma enableL_run e d :
  final_state enableL e d =
    final_state mqttCommunicate e (set_lState true (set_pinGreen LOW (set_pinRelay HIGH d))) /\
  trace enableL e d =
    trace mqttCommunicate e (set_lState true (set_pinGreen LOW (set_pinRelay HIGH d))).
Proof.
  unfold enableL, final_state, trace; cbn -[mqttCommunicate].
  match goal with |- context [mqttCommunicate ?e ?d] =>
    destruct (mqttCommunicate e d) as [[[] ?] ?] end; auto.
Qed.

Lemma disableL_run e d :
  final_state disableL e d =
    final_state mqttCommunicate e (set_lState false (set_pinGreen HIGH (set_pinRelay LOW d))) /\
  trace disableL e d =
    trace mqttCommunicate e (set_lState false (set_pinGreen HIGH (set_pinRelay LOW d))).
Proof.
  unfold disableL, final_state, trace; cbn -[mqttCommunicate].
  match goal with |- context [mqttCommunicate ?e ?d] =>
    destruct (mqttCommunicate e d) as [[[] ?] ?] end; auto.
Qed.

Lemma readSwitch_run e d :
  result readSwitch e d = (if switchLow e then negb (sState d) else sState d) /\
  final_state readSwitch e d = set_sState (switchLow e) d /\
  trace readSwitch e d = [].
Proof. repeat split. Qed.

Lemma manualSetupActivator_run e d :
  let fast := usub (millis e) (manualSetupActivatorTime d) <? MANUAL_SETUP_MAX_DELAY_MS in
  let fire := fast && (to_int (manualSetupModeCounter d + 1) =? MANUAL_SETUP_COUNTER)
              && negb (wifiManagerSetupRunning d) in
  final_state manualSetupActivator e d =
    set_manualSetupActivatorTime (millis e)
      (set_wifiManagerSetupStart (if fire then millis e else wifiManagerSetupStart d)
        (set_wifiManagerSetupRunning (wifiManagerSetupRunning d || fire)
          (set_manualSetupModeCounter
             (if fast then to_int (manualSetupModeCounter d + 1) else 0) d))) /\
  trace manualSetupActivator e d =
    (if fire then [EvStartConfigPortal; EvTickerAttach 1000] else []).
Proof.
  intros fast fire. subst fire. unfold manualSetupActivator, startWifiManager, wifiManagerSetupStarted, final_state, trace,
    when, skip, get, ask, modify, emit, bind, ret; cbn.
  subst fast. destruct d; cbn. case_ifs; rewrite ?orb_false_r; auto.
Qed.

Ltac switch_cases d :=
  destruct d as [[] [] ? ? ? ? ? ? ? [] [] [] [] ? ? ? ? ?].

Lemma switchAction_nonmomentary e d
  (Hm : momentarySwitch d = false) (Hon : online d = true) :
  let d' := final_state switchAction e d in
  lState d' = negb (lState d) /\ pinRelay d' = negb (lState d) /\
  pinGreen d' = lState d /\ gpioTrigger d' = false /\
  offline d' = offline d /\ mqttConnected d' = mqttConnected d /\
  sState d' = sState d /\ momentarySwitch d' = momentarySwitch d /\
  trace switchAction e d =
    [EvPublish (stateMsg (negb (lState d)) true);
     EvPublish (stateMsg (negb (lState d)) false)].
Proof.
  unfold online in Hon; switch_cases d; cbn in *; try discriminate;
  repeat split.
Qed.

Lemma switchAction_momentary e d
  (Hm : momentarySwitch d = true) (Hon : online d = true) :
  let d' := final_state switchAction e d in
  lState d' = (if sState d then negb (lState d) else lState d) /\
  pinRelay d' = (if sState d then negb (lState d) else pinRelay d) /\
  gpioTrigger d' = false /\
  offline d' = offline d /\ mqttConnected d' = mqttConnected d /\
  sState d' = sState d /\ momentarySwitch d' = momentarySwitch d /\
  trace switchAction e d =
    [EvPublish (stateMsg (if sState d then negb (lState d) else lState d) true)].
Proof.
  unfold online in Hon; switch_cases d; cbn in *; try discriminate;
  repeat split.
Qed.

Lemma gpioLoop_run e d :
  let d1 := set_sState (switchLow e) d in
  let changed := if switchLow e then negb (sState d) else sState d in
  final_state gpioLoop e d =
    (if changed then final_state manualSetupActivator e (final_state switchAction e d1)
     else d1) /\
  trace gpioLoop e d =
    (if changed then trace switchAction e d1 ++
                     trace manualSetupActivator e (final_state switchAction e d1)
     else []).
Proof.
  intros d1 changed. unfold gpioLoop.
  rewrite final_bind, trace_bind. cbv beta.
  destruct (readSwitch_run e d) as [R [F T]]. rewrite R, F, T.
  subst changed d1.
  destruct (if switchLow e then negb (sState d) else sState d); cbn [when app].
  - rewrite final_bind, trace_bind. cbv beta. auto.
  - auto.
Qed.

Lemma publishes_app l1 l2 : publishes (l1 ++ l2) = publishes l1 ++ publishes l2.
Proof. unfold publishes. apply flat_map_app. Qed.

Lemma manualSetupActivator_no_publish e d :
  publishes (trace manualSetupActivator e d) = [].
Proof.
  destruct (manualSetupActivator_run e d) as [_ T]. rewrite T.
  destruct (_ && _ && _); reflexivity.
Qed.

Lemma transitions_cons t ts e d :
  trace (transitions (t :: ts)) e d =
  trace (transition_at t) e d ++
  trace (transitions ts) e (final_state (transition_at t) e d)
  /\ final_state (transitions (t :: ts)) e d =
     final_state (transitions ts) e (final_state (transition_at t) e d).
Proof.
  simpl. unfold trace, final_state, bind.
  destruct (transition_at t e d) as [[[] d1] l1].
  destruct (transitions ts e d1) as [[[] d2] l2]. auto.
Qed.

Lemma portal_starts_app l1 l2 :
  portal_starts (l1 ++ l2) = (portal_starts l1 + portal_starts l2)%nat.
Proof. unfold portal_starts. rewrite filter_app, length_app. reflexivity. Qed.

(** switchAction leaves the gesture detector alone. *)
Lemma switchAction_frame e d :
  manualSetupModeCounter (final_state switchAction e d) = manualSetupModeCounter d /\
  manualSetupActivatorTime (final_state switchAction e d) = manualSetupActivatorTime d /\
  wifiManagerSetupRunning (final_state switchAction e d) = wifiManagerSetupRunning d /\
  portal_starts (trace switchAction e d) = 0%nat.
Proof. switch_cases d; repeat split. Qed.

(** Effect of one debounced transition on the gesture detector. *)
Lemma transition_at_gesture t e d :
  manualSetupModeCounter (final_state (transition_at t) e d) =
    (if usub t (manualSetupActivatorTime d) <? MANUAL_SETUP_MAX_DELAY_MS
     then to_int (manualSetupModeCounter d + 1) else 0)
  /\ manualSetupActivatorTime (final_state (transition_at t) e d) = t
  /\ wifiManagerSetupRunning (final_state (transition_at t) e d) =
     wifiManagerSetupRunning d ||
     ((usub t (manualSetupActivatorTime d) <? MANUAL_SETUP_MAX_DELAY_MS)
      && (to_int (manualSetupModeCounter d + 1) =? MANUAL_SETUP_COUNTER)
      && negb (wifiManagerSetupRunning d))
  /\ portal_starts (trace (transition_at t) e d) =
    (if (usub t (manualSetupActivatorTime d) <? MANUAL_SETUP_MAX_DELAY_MS)
        && (to_int (manualSetupModeCounter d + 1) =? MANUAL_SETUP_COUNTER)
        && negb (wifiManagerSetupRunning d) then 1%nat else 0%nat).
Proof.
  set (e' := with_clock_switch e t (negb (sState d))).
  assert (E1 : final_state (transition_at t) e d = final_state gpioLoop e' d)
    by reflexivity.
  assert (E2 : trace (transition_at t) e d = trace gpioLoop e' d)
    by reflexivity.
  assert (Hlow : switchLow e' = negb (sState d)) by reflexivity.
  assert (Hnow : millis e' = t) by reflexivity.
  rewrite E1, E2.
  destruct (gpioLoop_run e' d) as [F T].
  rewrite Hlow in F, T.
  assert (Hc : (if negb (sState d) then negb (sState d) else sState d) = true)
    by (destruct (sState d); reflexivity).
  rewrite Hc in F, T. rewrite F, T, portal_starts_app.
  set (d1 := set_sState (negb (sState d)) d) in *.
  destruct (switchAction_frame e' d1) as [Fc [Ft [Fr Fp]]].
  set (d2 := final_state switchAction e' d1) in *.
  clearbody d2.
  destruct (manualSetupActivator_run e' d2) as [MF MT].
  rewrite MF, MT, Fp, Hnow. cbn. rewrite Fc, Ft, Fr. subst d1; cbn.
  repeat split.
  case_ifs; reflexivity.
Qed.

Lemma transitions_nil e d : trace (transitions []) e d = [].
Proof. reflexivity. Qed.

(** The next transition in a chain: every gesture quantity of the state
    after it, in terms of the state before it. *)
Ltac gesture_step e t d d' :=
  let C := fresh "C" in let T := fresh "T" in
  let R := fresh "R" in let P := fresh "P" in
  destruct (transition_at_gesture t e d) as [C [T [R P]]];
  set (d' := final_state (transition_at t) e d) in *.

(** ** C1: the manual-setup gesture *)

(** C1 (corrected). Every debounced transition, press or release, feeds
    the gesture counter: a transition less than 500 ms (unsigned 32-bit
    difference of millis()) after the previous one increments it, any other
    transition resets it to 0, and startWifiManager(true) is called when the
    increment makes it exactly 5; the call does not reset it. So, with no
    portal running, a transition 500 ms or more after the previous one
    followed by five transitions each less than 500 ms apart calls
    startWifiManager(true) exactly once, on the sixth transition, leaving the
    counter at 5; if any of those five gaps is 500 ms or more, the six
    transitions never call it. *)
Theorem C1_gesture_sixth_transition (e : Env) (d : Dev) (t0 t1 t2 t3 t4 t5 : Z)
  (Hidle : wifiManagerSetupRunning d = false)
  (Hfirst : MANUAL_SETUP_MAX_DELAY_MS <= usub t0 (manualSetupActivatorTime d)) :
  let gaps := [usub t1 t0; usub t2 t1; usub t3 t2; usub t4 t3; usub t5 t4] in
  (Forall (fun g => g < MANUAL_SETUP_MAX_DELAY_MS) gaps ->
     portal_starts (trace (transitions [t0; t1; t2; t3; t4]) e d) = 0%nat /\
     portal_starts (trace (transitions [t0; t1; t2; t3; t4; t5]) e d) = 1%nat /\
     manualSetupModeCounter (final_state (transitions [t0; t1; t2; t3; t4; t5]) e d) = 5) /\
  (Exists (fun g => MANUAL_SETUP_MAX_DELAY_MS <= g) gaps ->
     portal_starts (trace (transitions [t0; t1; t2; t3; t4; t5]) e d) = 0%nat).
Proof.
  intros gaps.
  repeat rewrite (proj1 (transitions_cons _ _ _ _)).
  repeat rewrite (proj2 (transitions_cons _ _ _ _)).
  rewrite !transitions_nil, !portal_starts_app.
  gesture_step e t0 d d1. gesture_step e t1 d1 d2. gesture_step e t2 d2 d3.
  gesture_step e t3 d3 d4. gesture_step e t4 d4 d5. gesture_step e t5 d5 d6.
  assert (F : final_state (transitions []) e d6 = d6) by reflexivity.
  rewrite F.
  rewrite T, T0, T1, T2, T3 in *. rewrite R3, R2, R1, R0, R, Hidle in *.
  apply Z.ltb_ge in Hfirst. rewrite Hfirst in *.
  subst gaps; split; intro Hg.
  - repeat (let H := fresh in inversion Hg as [|? ? H Hg']; clear Hg; rename Hg' into Hg;
            apply Z.ltb_lt in H; rewrite H in * ).
    rewrite P, P0, P1, P2, P3, P4. rewrite C4, C3, C2, C1, C0, C. cbn. auto.
  - rewrite P, P0, P1, P2, P3, P4, C3, C2, C1, C0, C.
    unfold MANUAL_SETUP_MAX_DELAY_MS, MANUAL_SETUP_COUNTER in *.
    repeat match goal with |- context [?x <? 500] => case_bool (x <? 500) end;
    cbn; auto;
    rewrite !Exists_cons, Exists_nil in Hg;
    repeat match goal with H : (_ <? _) = true |- _ => apply Z.ltb_lt in H end;
    lia.
Qed.


(** Witness of [C1_gesture_sixth_transition] on a freshly powered device. *)
Lemma C1_gesture_sixth_transition_witness :
  wifiManagerSetupRunning power_on = false /\
  MANUAL_SETUP_MAX_DELAY_MS <= usub 1000 (manualSetupActivatorTime power_on) /\
  portal_starts (trace (transitions [1000; 1100; 1200; 1300; 1400])
                       (quiet_env 0 false) power_on) = 0%nat /\
  portal_starts (trace (transitions [1000; 1100; 1200; 1300; 1400; 1500])
                       (quiet_env 0 false) power_on) = 1%nat.
Proof.
  assert (Hr : wifiManagerSetupRunning power_on = false) by reflexivity.
  assert (Hf : MANUAL_SETUP_MAX_DELAY_MS <= usub 1000 (manualSetupActivatorTime power_on))
    by (vm_compute; discriminate).
  destruct (C1_gesture_sixth_transition (quiet_env 0 false) power_on
              1000 1100 1200 1300 1400 1500 Hr Hf) as [Hfast _].
  destruct Hfast as [H5 [H6 _]].
  - repeat constructor; vm_compute; reflexivity.
  - repeat split; assumption.
Defined.

(** C1 (claim as stated) fails: five transitions 100 ms apart, starting
    from a reset counter, never call startWifiManager(true); the call comes
    on the sixth transition even when only three of them are presses; the
    counter is 5, not 0, after the call; an out-of-window transition sets
    it to 0, not 1. *)
Lemma C1_gesture_counterexample :
  portal_starts (trace (transitions [1000; 1100; 1200; 1300; 1400])
                       (quiet_env 0 false) power_on) = 0%nat /\
  portal_starts (trace (transitions [1000; 1050; 1100; 1150; 1200; 1250])
                       (quiet_env 0 false) power_on) = 1%nat /\
  manualSetupModeCounter
    (final_state (transitions [1000; 1100; 1200; 1300; 1400; 1500])
                 (quiet_env 0 false) power_on) = 5 /\
  manualSetupModeCounter
    (final_state (transitions [1000; 1100; 1200; 5000])
                 (quiet_env 0 false) power_on) = 0.
Proof. repeat split; vm_compute; reflexivity. Qed.

(** ** C2, C7: switch transitions and the relay *)


(** C2 (claim as stated) fails: two toggles bring the relay back to off. *)
Lemma C2_press_release_counterexample :
  let d := set_offline false (set_mqttConnected true power_on) in
  let d1 := final_state gpioLoop (press (quiet_env 0 false) 1000) d in
  let d2 := final_state gpioLoop (release (quiet_env 0 false) 1200) d1 in
  lState d2 = false.
Proof. vm_compute. reflexivity. Qed.

(** C2 (corrected). In non-momentary mode, with the device online and the
    MQTT client connected, starting with the relay off and the switch
    released, the press turns the relay on and publishes "1." then "1"; the
    release turns it off again and publishes "0." then "0": two toggles and
    four publishes, one flagged then one plain per transition, ending with
    the relay off. *)
Theorem C2_nonmomentary_press_release (e : Env) (d : Dev) (t1 t2 : Z)
  (Hmode : momentarySwitch d = false) (Hl : lState d = false)
  (Hs : sState d = false) (Hon : online d = true) :
  let d1 := final_state gpioLoop (press e t1) d in
  let d2 := final_state gpioLoop (release e t2) d1 in
  lState d1 = true /\ pinRelay d1 = HIGH /\
  publishes (trace gpioLoop (press e t1) d) = ["1."; "1"]%string /\
  lState d2 = false /\ pinRelay d2 = LOW /\
  publishes (trace gpioLoop (release e t2) d1) = ["0."; "0"]%string.
Proof.
  intros d1 d2.
  destruct (gpioLoop_run (press e t1) d) as [F1 T1].
  destruct (gpioLoop_run (release e t2) d1) as [F2 T2].
  cbn in F1, T1. rewrite Hs in F1, T1. cbn in F1, T1.
  set (a1 := set_sState true d) in *.
  destruct (switchAction_nonmomentary (press e t1) a1) as
    [L1 [P1 [G1 [Tr1 [O1 [C1 [S1 [M1 X1]]]]]]]]; try (subst a1; cbn; assumption).
  set (b1 := final_state switchAction (press e t1) a1) in *.
  destruct (manualSetupActivator_run (press e t1) b1) as [MF1 _].
  clearbody b1.
  assert (Hd1 : lState d1 = true /\ pinRelay d1 = HIGH /\ sState d1 = true /\
                momentarySwitch d1 = false /\ online d1 = true).
  { subst d1. rewrite F1, MF1. unfold online in *. cbn.
    rewrite L1, P1, S1, M1, O1, C1. subst a1; cbn. rewrite Hl, Hmode. auto. }
  destruct Hd1 as [L1' [P1' [S1' [M1' On1']]]].
  unfold d2; clear d2.
  rewrite T2, F2. cbn. rewrite S1'. cbn.
  set (a2 := set_sState false d1) in *.
  destruct (switchAction_nonmomentary (release e t2) a2) as
    [L2 [P2 [G2 [Tr2 [O2 [C2 [S2 [M2 X2]]]]]]]]; try (subst a2; cbn; assumption).
  set (b2 := final_state switchAction (release e t2) a2) in *.
  destruct (manualSetupActivator_run (release e t2) b2) as [MF2 _].
  clearbody b2.
  rewrite MF2; cbn. rewrite L2, P2. subst a2; cbn. rewrite L1'.
  rewrite T1, publishes_app, manualSetupActivator_no_publish, X1.
  rewrite publishes_app, manualSetupActivator_no_publish, X2. cbn.
  rewrite L1'. subst a1; cbn. rewrite Hl.
  repeat split; auto.
Qed.

Lemma C2_nonmomentary_press_release_witness :
  let d := set_offline false (set_mqttConnected true power_on) in
  let e := quiet_env 0 false in
  momentarySwitch d = false /\ lState d = false /\ sState d = false /\ online d = true /\
  publishes (trace gpioLoop (press e 1000) d) = ["1."; "1"]%string /\
  lState (final_state gpioLoop (release e 2000) (final_state gpioLoop (press e 1000) d))
    = false.
Proof.
  intros d e.
  assert (H1 : momentarySwitch d = false) by reflexivity.
  assert (H2 : lState d = false) by reflexivity.
  assert (H3 : sState d = false) by reflexivity.
  assert (H4 : online d = true) by reflexivity.
  destruct (C2_nonmomentary_press_release e d 1000 2000 H1 H2 H3 H4)
    as (_ & _ & P & L & _).
  repeat split; assumption.
Defined.

(** ** C7: momentary mode *)

(** C7. In momentary mode, online and connected, starting with the relay
    off and the switch released, the press turns the relay on with exactly
    one publish, flagged ("1."); the following release leaves the relay on
    and issues exactly one flagged publish reporting it on ("1."). *)
Theorem C7_momentary_press_release (e : Env) (d : Dev) (t1 t2 : Z)
  (Hmode : momentarySwitch d = true) (Hl : lState d = false)
  (Hs : sState d = false) (Hon : online d = true) :
  let d1 := final_state gpioLoop (press e t1) d in
  let d2 := final_state gpioLoop (release e t2) d1 in
  lState d1 = true /\ pinRelay d1 = HIGH /\
  publishes (trace gpioLoop (press e t1) d) = ["1."]%string /\
  lState d2 = true /\ pinRelay d2 = HIGH /\
  publishes (trace gpioLoop (release e t2) d1) = ["1."]%string.
Proof.
  intros d1 d2.
  destruct (gpioLoop_run (press e t1) d) as [F1 T1].
  destruct (gpioLoop_run (release e t2) d1) as [F2 T2].
  cbn in F1, T1. rewrite Hs in F1, T1. cbn in F1, T1.
  set (a1 := set_sState true d) in *.
  destruct (switchAction_momentary (press e t1) a1) as
    [L1 [P1 [Tr1 [O1 [C1 [S1 [M1 X1]]]]]]]; try (subst a1; cbn; assumption).
  set (b1 := final_state switchAction (press e t1) a1) in *.
  destruct (manualSetupActivator_run (press e t1) b1) as [MF1 _].
  clearbody b1.
  assert (Hd1 : lState d1 = true /\ pinRelay d1 = HIGH /\ sState d1 = true /\
                momentarySwitch d1 = true /\ online d1 = true).
  { subst d1. rewrite F1, MF1. unfold online in *. cbn.
    rewrite L1, P1, S1, M1, O1, C1. subst a1; cbn. rewrite Hl, Hmode. auto. }
  destruct Hd1 as [L1' [P1' [S1' [M1' On1']]]].
  unfold d2; clear d2.
  rewrite T2, F2. cbn. rewrite S1'. cbn.
  set (a2 := set_sState false d1) in *.
  destruct (switchAction_momentary (release e t2) a2) as
    [L2 [P2 [Tr2 [O2 [C2 [S2 [M2 X2]]]]]]]; try (subst a2; cbn; assumption).
  set (b2 := final_state switchAction (release e t2) a2) in *.
  destruct (manualSetupActivator_run (release e t2) b2) as [MF2 _].
  clearbody b2.
  rewrite MF2; cbn. rewrite L2, P2. subst a2; cbn. rewrite L1', P1'.
  rewrite T1, publishes_app, manualSetupActivator_no_publish, X1.
  rewrite publishes_app, manualSetupActivator_no_publish, X2. cbn.
  rewrite L1'. subst a1; cbn. rewrite Hl.
  repeat split; auto.
Qed.

Lemma C7_momentary_press_release_witness :
  let d := set_momentarySwitch true (set_offline false (set_mqttConnected true power_on)) in
  let e := quiet_env 0 false in
  momentarySwitch d = true /\ lState d = false /\ sState d = false /\ online d = true /\
  publishes (trace gpioLoop (press e 1000) d) = ["1."]%string /\
  publishes (trace gpioLoop (release e 2000) (final_state gpioLoop (press e 1000) d))
    = ["1."]%string.
Proof.
  intros d e.
  assert (H1 : momentarySwitch d = true) by reflexivity.
  assert (H2 : lState d = false) by reflexivity.
  assert (H3 : sState d = false) by reflexivity.
  assert (H4 : online d = true) by reflexivity.
  destruct (C7_momentary_press_release e d 1000 2000 H1 H2 H3 H4)
    as (_ & _ & P1 & _ & _ & P2).
  repeat split; assumption.
Defined.

(** ** C3: enableL / disableL and the user-trigger flag *)

(** C3 (claim as stated) fails: offline, enableL leaves gpioTrigger set. *)
Lemma C3_trigger_kept_offline :
  gpioTrigger (final_state enableL (quiet_env 0 false) (set_gpioTrigger true power_on)) = true.
Proof. reflexivity. Qed.

(** C3 (corrected). enableL and disableL set the relay output and lState,
    and ask mqttCommunicate for a publish of the new state carrying the
    current gpioTrigger; gpioTrigger is cleared only when that publish is
    actually sent (device online and MQTT client connected), otherwise it is
    left as it was and nothing is published. *)
Theorem C3_enable_disable_trigger (e : Env) (d : Dev) :
  (lState (final_state enableL e d) = true /\
   pinRelay (final_state enableL e d) = HIGH /\
   gpioTrigger (final_state enableL e d) = gpioTrigger d && negb (online d) /\
   trace enableL e d =
     (if online d then [EvPublish (stateMsg true (gpioTrigger d))] else [])) /\
  (lState (final_state disableL e d) = false /\
   pinRelay (final_state disableL e d) = LOW /\
   gpioTrigger (final_state disableL e d) = gpioTrigger d && negb (online d) /\
   trace disableL e d =
     (if online d then [EvPublish (stateMsg false (gpioTrigger d))] else [])).
Proof.
  switch_cases d; repeat split.
Qed.

(** ** C4, C9: the command dispatcher *)

Lemma startsWith_nil s : startsWith s "" = true.
Proof. destruct s; reflexivity. Qed.

(** Truncating the payload to 9 characters and cutting it at a NUL does not
    change whether it starts with a NUL-free prefix of at most 9 characters. *)
Lemma startsWith_copyPayload pre : forall p n,
  (String.length pre <= n \/ String.length p <= n)%nat ->
  (forall i c, String.get i pre = Some c -> c <> "000"%char) ->
  startsWith (copyPayload n p) pre = startsWith p pre.
Proof.
  induction pre as [|a pre IH]; intros p n Hn Hnul.
  - rewrite !startsWith_nil. reflexivity.
  - destruct p as [|c p].
    + destruct n; reflexivity.
    + destruct n as [|n].
      * cbn in Hn. lia.
      * cbn. destruct (Ascii.eqb c "000"%char) eqn:Ec.
        -- apply Ascii.eqb_eq in Ec; subst c.
           destruct (Ascii.eqb "000"%char a) eqn:Ea; [|reflexivity].
           apply Ascii.eqb_eq in Ea. exfalso. apply (Hnul 0%nat a); [reflexivity|].
           congruence.
        -- cbn. rewrite IH; [reflexivity| |].
           ++ cbn in Hn. lia.
           ++ intros i c' Hi. apply (Hnul (S i)). exact Hi.
Qed.

Lemma payloadCommand_startsWith p c :
  startsWith (payloadCommand p) (commandPrefix c) = startsWith p (commandPrefix c).
Proof.
  unfold payloadCommand. apply startsWith_copyPayload.
  - destruct c; cbn; lia.
  - destruct c; cbn; intros [|[|[|i]]] c' H; cbn in H; try discriminate;
      injection H as <-; discriminate.
Qed.

(** The guards of mqttCallback select exactly the first-match command. *)
Lemma matchedCommands_first_match payload :
  matchedCommands payload = option_list (classify_spec payload).
Proof.
  unfold matchedCommands. cbn [filter].
  rewrite !payloadCommand_startsWith.
  unfold classify_spec, commandPrefix, CMD_SETUP, CMD_RESET, CMD_OTA, CMD_ON, CMD_OFF.
  destruct payload as [|c rest]; [reflexivity|].
  destruct c as [[] [] [] [] [] [] [] []]; cbn; case_ifs; reflexivity.
Qed.

(** C4: the guards of mqttCallback that hold are exactly the first command of
    the order set, rst, ota, 1, 0 whose prefix the payload starts with (the
    spec's first-match dispatcher); "setota" is EnterProvisioning only: when
    no portal is running it starts the on-demand portal, whose access-point
    callback wifiManagerSetupStarted() attaches the 1000 ms LED ticker, sets
    wifiManagerSetupRunning and records millis() as the portal start; it
    changes nothing else and does not enter update mode. *)
Theorem C4_dispatch_first_match :
  (forall payload, matchedCommands payload = option_list (classify_spec payload)) /\
  classify_spec "setota" = Some EnterProvisioning /\
  matchedCommands "setota" = [EnterProvisioning] /\
  (forall e d,
     trace (mqttCallback "setota") e d =
       (if wifiManagerSetupRunning d then []
        else [EvStartConfigPortal; EvTickerAttach 1000]) /\
     final_state (mqttCallback "setota") e d =
       (if wifiManagerSetupRunning d then d
        else set_wifiManagerSetupStart (millis e) (set_wifiManagerSetupRunning true d)) /\
     otaRunning (final_state (mqttCallback "setota") e d) = otaRunning d).
Proof.
  split; [exact matchedCommands_first_match|].
  split; [reflexivity|]. split; [reflexivity|].
  intros e d. unfold final_state, trace.
  unfold_dozy. cbn.
  destruct (wifiManagerSetupRunning d); cbn; repeat split.
Qed.

(** C9: for every payload at most one of the five command guards of
    mqttCallback holds, so at most one command action runs. *)
Theorem C9_at_most_one_command (payload : string) :
  (List.length (matchedCommands payload) <= 1)%nat.
Proof.
  rewrite matchedCommands_first_match.
  destruct (classify_spec payload); cbn; lia.
Qed.

(** ** C5: reconnection back-off *)

Lemma mqttReconnect_run e d :
  let attempt := negb (mqttConnected d) &&
                 (mqttConnectDelay d <? usub (millis e) (mqttConnectAttempt d)) in
  let dl1 := (mqttConnectDelay d + 1000) mod ULONG_MOD in
  let dl2 := if 60000 <? dl1 then 60000 else dl1 in
  result mqttReconnect e d = attempt && connectOk e /\
  trace mqttReconnect e d =
    (if attempt then EvMqttConnect :: (if connectOk e then [EvMqttSubscribe] else [])
     else []) /\
  final_state mqttReconnect e d =
    (if attempt then
       if connectOk e then
         set_mqttConnectDelay 0 (set_mqttConnected true
           (set_mqttConnectAttempt (millis e) (set_mqttConnectDelay dl2 d)))
       else set_mqttConnectAttempt (millis e) (set_mqttConnectDelay dl2 d)
     else d).
Proof.
  cbv zeta. unfold result. unfold_dozy.
  destruct (mqttConnected d); cbn; [repeat split|].
  case_ifs; repeat split.
Qed.

Lemma steps_cons {A} (m : M A) e es d :
  steps m (e :: es) d =
  (fst (steps m es (final_state m e d)), trace m e d ++ snd (steps m es (final_state m e d))).
Proof. cbn. destruct (steps m es (final_state m e d)); reflexivity. Qed.

Lemma reconnect_failures es : forall d,
  mqttConnected d = false -> 0 <= mqttConnectDelay d <= 60000 ->
  Forall (fun e => connectOk e = false) es ->
  mqttConnected (fst (steps mqttReconnect es d)) = false /\
  mqttConnectDelay (fst (steps mqttReconnect es d)) =
    Z.min (mqttConnectDelay d +
           1000 * Z.of_nat (connect_attempts (snd (steps mqttReconnect es d)))) 60000.
Proof.
  induction es as [|e es IH]; intros d Hc Hd Hf.
  - cbn. split; [exact Hc| lia].
  - inversion Hf as [|? ? Hok Hf']; subst.
    rewrite steps_cons. cbn [fst snd].
    destruct (mqttReconnect_run e d) as (_ & Htr & Hfin).
    rewrite Htr, Hfin. rewrite Hc, Hok. cbn [negb andb].
    unfold connect_attempts. rewrite filter_app, length_app.
    destruct (mqttConnectDelay d <? usub (millis e) (mqttConnectAttempt d)) eqn:Ea.
    + set (d1 := set_mqttConnectAttempt _ _).
      assert (Hd1 : mqttConnectDelay d1 = Z.min (mqttConnectDelay d + 1000) 60000).
      { unfold d1. cbn. unfold ULONG_MOD.
        rewrite Z.mod_small by lia.
        destruct (60000 <? mqttConnectDelay d + 1000) eqn:E;
          [apply Z.ltb_lt in E | apply Z.ltb_ge in E]; lia. }
      destruct (IH d1) as [IHc IHd]; [unfold d1; cbn; exact Hc | lia | exact Hf' |].
      split; [exact IHc|]. rewrite IHd, Hd1. unfold connect_attempts.
      cbn [filter is_connect List.length]. lia.
    + destruct (IH d) as [IHc IHd]; [exact Hc | exact Hd | exact Hf' |].
      split; [exact IHc|]. rewrite IHd. unfold connect_attempts. cbn. lia.
Qed.

(** C5: over any run of calls of mqttReconnect whose connects all fail,
    started disconnected with back-off 0, the back-off after the i-th
    attempt is min(1000*i, 60000); an attempt is made exactly when the
    client is disconnected and the time since the last attempt exceeds the
    back-off; a successful connect leaves the client connected with back-off
    0. *)
Theorem C5_reconnect_backoff (es : list Env) (d : Dev)
  (Hc : mqttConnected d = false) (Hd : mqttConnectDelay d = 0)
  (Hfail : Forall (fun e => connectOk e = false) es) :
  mqttConnected (fst (steps mqttReconnect es d)) = false /\
  mqttConnectDelay (fst (steps mqttReconnect es d)) =
    Z.min (1000 * Z.of_nat (connect_attempts (snd (steps mqttReconnect es d)))) 60000 /\
  (forall e d',
     In EvMqttConnect (trace mqttReconnect e d') <->
     mqttConnected d' = false /\
     mqttConnectDelay d' < usub (millis e) (mqttConnectAttempt d')) /\
  (forall e d',
     result mqttReconnect e d' = true ->
     mqttConnected (final_state mqttReconnect e d') = true /\
     mqttConnectDelay (final_state mqttReconnect e d') = 0).
Proof.
  destruct (reconnect_failures es d Hc) as [H1 H2]; [lia | exact Hfail |].
  split; [exact H1|]. split; [rewrite H2, Hd; lia|].
  split.
  - intros e d'. destruct (mqttReconnect_run e d') as (_ & Htr & _).
    rewrite Htr.
    destruct (mqttConnected d'); cbn.
    + split; [intros []| intros [? _]; discriminate].
    + destruct (mqttConnectDelay d' <? usub (millis e) (mqttConnectAttempt d')) eqn:E.
      * apply Z.ltb_lt in E. split; [intros _; auto | intros _; now left].
      * apply Z.ltb_ge in E. split; [intros []| intros [_ ?]; lia].
  - intros e d' Hr. destruct (mqttReconnect_run e d') as (Hres & _ & Hfin).
    rewrite Hres in Hr. rewrite Hfin.
    apply andb_true_iff in Hr as [Ha Hok]. rewrite Ha, Hok.
    split; reflexivity.
Qed.

Lemma C5_reconnect_backoff_witness :
  let mk t := mkEnv t false None None true false false [] 0 in
  let es := [mk 500; mk 1200; mk 2500] in
  mqttConnected power_on = false /\ mqttConnectDelay power_on = 0 /\
  mqttConnectDelay (fst (steps mqttReconnect es power_on)) = 2000 /\
  connect_attempts (snd (steps mqttReconnect es power_on)) = 2%nat.
Proof.
  intros mk es.
  assert (Hc : mqttConnected power_on = false) by reflexivity.
  assert (Hd : mqttConnectDelay power_on = 0) by reflexivity.
  assert (Hf : Forall (fun e => connectOk e = false) es) by (repeat constructor).
  destruct (C5_reconnect_backoff es power_on Hc Hd Hf) as (_ & H & _).
  assert (Hn : connect_attempts (snd (steps mqttReconnect es power_on)) = 2%nat)
    by (vm_compute; reflexivity).
  split; [exact Hc|]. split; [exact Hd|].
  split; [rewrite H, Hn; reflexivity | exact Hn].
Defined.

(** ** Invariants of whole functions *)

(** [m] keeps the state predicate [P] and emits only events satisfying [Q]. *)
Definition respects {A} (P : Dev -> Prop) (Q : Event -> Prop) (m : M A) : Prop :=
  forall e d, P d -> P (final_state m e d) /\ Forall Q (trace m e d).

Section Respects.
Variable P : Dev -> Prop.
Variable Q : Event -> Prop.

Lemma respects_ret {A} (a : A) : respects P Q (ret a).
Proof. intros e d Hd. split; [exact Hd | constructor]. Qed.

Lemma respects_get {A} (f : Dev -> A) : respects P Q (get f).
Proof. intros e d Hd. split; [exact Hd | constructor]. Qed.

Lemma respects_ask {A} (f : Env -> A) : respects P Q (ask f).
Proof. intros e d Hd. split; [exact Hd | constructor]. Qed.

Lemma respects_emit ev : Q ev -> respects P Q (emit ev).
Proof. intros Hq e d Hd. split; [exact Hd | repeat constructor; exact Hq]. Qed.

Lemma respects_modify f : (forall d, P d -> P (f d)) -> respects P Q (modify f).
Proof. intros Hf e d Hd. split; [exact (Hf d Hd) | constructor]. Qed.

Lemma respects_bind {A B} (m : M A) (k : A -> M B) :
  respects P Q m -> (forall a, respects P Q (k a)) -> respects P Q (bind m k).
Proof.
  intros Hm Hk e d Hd.
  rewrite final_bind, trace_bind.
  destruct (Hm e d Hd) as [H1 T1].
  destruct (Hk (result m e d) e (final_state m e d) H1) as [H2 T2].
  split; [exact H2 | apply Forall_app; split; assumption].
Qed.

Lemma respects_when b m : respects P Q m -> respects P Q (when b m).
Proof. intros Hm. destruct b; [exact Hm | apply respects_ret]. Qed.

Lemma respects_repeatM n m : respects P Q m -> respects P Q (repeatM n m).
Proof.
  intros Hm. induction n as [|n IH]; cbn.
  - apply respects_ret.
  - apply respects_bind; [exact Hm | intros _; exact IH].
Qed.

Lemma respects_forEach {A} (f : A -> M unit) xs :
  (forall x, respects P Q (f x)) -> respects P Q (forEach f xs).
Proof.
  intros Hf. induction xs as [|x xs IH]; cbn.
  - apply respects_ret.
  - apply respects_bind; [apply Hf | intros _; exact IH].
Qed.
End Respects.

Create HintDb dozy_resp.

(** Split a computation into its steps; the steps left over are the named
    functions, closed by the lemmas of [dozy_resp]. *)
Ltac respects_steps :=
  repeat first
    [ solve [eauto with dozy_resp]
    | apply respects_ret | apply respects_get | apply respects_ask
    | apply respects_when
    | apply respects_repeatM
    | apply respects_forEach; intro
    | apply respects_bind; [| intro; cbv beta]
    | match goal with
      | |- respects _ _ (if ?b then _ else _) => destruct b
      | |- respects _ _ (match ?x with _ => _ end) => destruct x
      end
    | apply respects_emit
    | apply respects_modify; intro; cbn ].

(** *** No phase marker inside the switch and MQTT servicing *)

Ltac resp_auto := respects_steps; cbn; auto.

Lemma mqttCommunicate_no_marker :
  respects (fun _ => True) (fun ev => tick_marker ev = false) mqttCommunicate.
Proof. unfold mqttCommunicate. resp_auto. Qed.
#[local] Hint Resolve mqttCommunicate_no_marker : dozy_resp.

Lemma enableL_no_marker :
  respects (fun _ => True) (fun ev => tick_marker ev = false) enableL.
Proof. unfold enableL. resp_auto. Qed.
Lemma disableL_no_marker :
  respects (fun _ => True) (fun ev => tick_marker ev = false) disableL.
Proof. unfold disableL. resp_auto. Qed.
Lemma startWifiManager_no_marker b :
  respects (fun _ => True) (fun ev => tick_marker ev = false) (startWifiManager b).
Proof. unfold startWifiManager, wifiManagerSetupStarted. resp_auto. Qed.
#[local] Hint Resolve enableL_no_marker disableL_no_marker startWifiManager_no_marker : dozy_resp.

Lemma mqttCallback_no_marker p :
  respects (fun _ => True) (fun ev => tick_marker ev = false) (mqttCallback p).
Proof. unfold mqttCallback. resp_auto. Qed.
Lemma mqttReconnect_no_marker :
  respects (fun _ => True) (fun ev => tick_marker ev = false) mqttReconnect.
Proof. unfold mqttReconnect. resp_auto. Qed.
#[local] Hint Resolve mqttCallback_no_marker mqttReconnect_no_marker : dozy_resp.

Lemma mqttLoop_no_marker :
  respects (fun _ => True) (fun ev => tick_marker ev = false) mqttLoop.
Proof. unfold mqttLoop. resp_auto. Qed.

Lemma gpioLoop_no_marker :
  respects (fun _ => True) (fun ev => tick_marker ev = false) gpioLoop.
Proof.
  unfold gpioLoop, readSwitch, switchAction, manualSetupActivator. resp_auto.
Qed.

(** *** One pass of loop(), phase by phase *)

(** State after the callback fired inside [wifiManager.process()]. *)
Definition after_wm_callback (e : Env) (d : Dev) : Dev :=
  match wmCallback e with
  | Some (CbSaveParams m) => set_restart true (set_momentarySwitch m d)
  | None => d
  end.

Lemma wifimanagerLoop_run e d :
  let dc := after_wm_callback e d in
  let timeout := wifiManagerSetupRunning dc &&
                 (CONFIG_TIMEOUT_MS <? usub (millis e) (wifiManagerSetupStart dc)) in
  final_state wifimanagerLoop e d =
    set_offline (negb (wifiConnected e))
      (if wifiManagerSetupRunning dc then
         (if timeout then set_restart true dc else dc)
       else set_pinRed (if offline dc then LOW else HIGH) dc) /\
  trace wifimanagerLoop e d =
    EvWmProcess :: (if timeout then [EvStopConfigPortal] else []).
Proof.
  unfold after_wm_callback, wifimanagerLoop, saveParamsCallback,
    wifiManagerSetupStarted, wifiManagerSetupStopped,
    final_state, trace, when, skip, get, ask, modify, emit, bind, ret.
  destruct (wmCallback e) as [[m]|]; cbn; case_ifs; auto.
Qed.

Lemma otaOnProgress_run e d :
  final_state otaOnProgress e d =
    set_pinGreen (pinRed d) (set_pinRed (negb (pinRed d)) d) /\
  trace otaOnProgress e d = [].
Proof. destruct d as [? ? ? ? ? ? ? ? ? ? ? ? ? ? ? ? ? []]; split; reflexivity. Qed.

(** The progress callbacks only move the two LEDs. *)
Lemma repeat_otaOnProgress n e d :
  (exists r g, final_state (repeatM n otaOnProgress) e d = set_pinGreen g (set_pinRed r d)) /\
  trace (repeatM n otaOnProgress) e d = [].
Proof.
  revert d. induction n as [|n IH]; intros d; cbn [repeatM].
  - split; [exists (pinRed d), (pinGreen d); destruct d; reflexivity | reflexivity].
  - rewrite final_bind, trace_bind. cbv beta.
    destruct (otaOnProgress_run e d) as [F T]. rewrite F, T.
    destruct (IH (set_pinGreen (pinRed d) (set_pinRed (negb (pinRed d)) d)))
      as [[r [g Hrg]] Ht].
    rewrite Hrg, Ht. split; [|reflexivity].
    exists r, g. destruct d; reflexivity.
Qed.

Lemma otaTick_run e d :
  let d' := final_state otaTick e d in
  trace otaTick e d = [EvOtaHandle] /\
  restart d' = restart d || (OTA_TIMEOUT_MS <? usub (millis e) (otaStart d)) /\
  otaRunning d' = otaRunning d /\ otaStart d' = otaStart d /\
  pinRelay d' = pinRelay d /\ lState d' = lState d.
Proof.
  unfold otaTick. rewrite final_bind, trace_bind. cbn [final_state trace emit].
  cbv beta. rewrite final_bind, trace_bind. cbn [final_state trace result ask].
  cbv beta. rewrite final_bind, trace_bind.
  destruct (repeat_otaOnProgress (otaProgress e) e d) as [[r [g Hrg]] Ht].
  rewrite Hrg, Ht.
  unfold final_state, trace, when, skip, get, ask, modify, bind, ret; cbn.
  case_ifs; rewrite ?orb_true_r, ?orb_false_r; repeat split.
Qed.

Lemma loop_run e d :
  let d0 := if mqttLost e then set_mqttConnected false d else d in
  let body := if otaRunning d then otaTick else normalTick in
  let d1 := final_state body e d0 in
  final_state loop e d = d1 /\
  trace loop e d = trace body e d0 ++ (if restart d1 then [EvRestart] else []).
Proof.
  intros d0 body d1. subst d1 body d0.
  unfold loop, final_state, trace, when, skip, get, ask, modify, emit, bind, ret.
  destruct (mqttLost e), (otaRunning d) eqn:Ho; cbn -[otaTick normalTick]; rewrite ?Ho;
  match goal with |- context [?b ?e ?d] =>
    lazymatch b with otaTick => idtac | normalTick => idtac end;
    destruct (b e d) as [[[] d1] l] end;
  destruct (restart d1); cbn; rewrite ?app_nil_r; auto.
Qed.

Lemma normalTick_run e d :
  let d1 := final_state gpioLoop e d in
  let d2 := final_state wifimanagerLoop e d1 in
  final_state normalTick e d = (if offline d2 then d2 else final_state mqttLoop e d2) /\
  trace normalTick e d =
    trace gpioLoop e d ++ trace wifimanagerLoop e d1 ++
    (if offline d2 then [] else trace mqttLoop e d2).
Proof.
  intros d1 d2. unfold normalTick.
  rewrite final_bind, trace_bind. cbv beta.
  rewrite final_bind, trace_bind. cbv beta. fold d1.
  rewrite final_bind, trace_bind. cbv beta. fold d2.
  cbn [result final_state trace get].
  destruct (offline d2); cbn [negb when]; rewrite ?app_nil_r; auto.
Qed.

(** [ESP.restart()] is the last event of a pass, and it happens exactly when
    the restart flag is set at the end of the pass. *)
Lemma loop_restart_last e d :
  exists l,
    trace loop e d = l ++ (if restart (final_state loop e d) then [EvRestart] else []) /\
    Forall (fun ev => is_restart ev = false) l.
Proof.
  destruct (loop_run e d) as [F T]. cbv zeta in F, T. rewrite F, T.
  eexists; split; [reflexivity|].
  set (d0 := if mqttLost e then set_mqttConnected false d else d).
  destruct (otaRunning d).
  - destruct (otaTick_run e d0) as [Ht _]. rewrite Ht. repeat constructor.
  - destruct (normalTick_run e d0) as [_ Ht]. rewrite Ht.
    destruct (gpioLoop_no_marker e d0 I) as [_ G].
    destruct (wifimanagerLoop_run e (final_state gpioLoop e d0)) as [_ W].
    rewrite W.
    apply Forall_app; split; [|apply Forall_app; split].
    + revert G. apply Forall_impl. intros [] H; cbn in *; congruence.
    + constructor; [reflexivity|]. destruct (_ && _); repeat constructor.
    + match goal with |- context [if offline ?x then _ else _] => destruct (offline x) end;
        [constructor|].
      match goal with |- Forall _ (trace mqttLoop ?e ?x) =>
        destruct (mqttLoop_no_marker e x I) as [_ G'] end.
      revert G'. apply Forall_impl. intros [] H; cbn in *; congruence.
Qed.

Lemma existsb_restart e d :
  existsb is_restart (trace loop e d) = restart (final_state loop e d).
Proof.
  destruct (loop_restart_last e d) as [l [T H]]. rewrite T, existsb_app.
  replace (existsb is_restart l) with false.
  - destruct (restart (final_state loop e d)); reflexivity.
  - symmetry. apply Bool.not_true_iff_false. intros Hx.
    apply existsb_exists in Hx as [x [Hin Hx]].
    rewrite Forall_forall in H. rewrite (H x Hin) in Hx. discriminate.
Qed.

(** *** Provisioning and update timeouts *)

Lemma mqttLoop_quiet e d (H : inbound e = []) :
  final_state mqttLoop e d =
    (if mqttConnected d then d else final_state mqttReconnect e d).
Proof.
  unfold mqttLoop, final_state, when, emit, ask, get, bind, ret, skip.
  destruct (mqttConnected d).
  - cbn -[mqttReconnect]. rewrite H. reflexivity.
  - cbn -[mqttReconnect]. destruct (mqttReconnect e d) as [[[] ?] ?]; cbn; rewrite ?H; reflexivity.
Qed.

Lemma provisioning_tick e d
  (Hw : wifiManagerSetupRunning d = true) (Ho : otaRunning d = false)
  (Hcb : wmCallback e = None) (Hin : inbound e = []) (Hs : switchLow e = sState d) :
  let d' := final_state loop e d in
  restart d' = restart d || (CONFIG_TIMEOUT_MS <? usub (millis e) (wifiManagerSetupStart d)) /\
  wifiManagerSetupRunning d' = true /\
  wifiManagerSetupStart d' = wifiManagerSetupStart d /\
  otaRunning d' = false /\ sState d' = sState d.
Proof.
  destruct (loop_run e d) as [F _]. cbv zeta in F |- *. rewrite F, Ho.
  set (d0 := if mqttLost e then set_mqttConnected false d else d).
  assert (E0 : wifiManagerSetupRunning d0 = true /\ otaRunning d0 = false /\
               restart d0 = restart d /\ sState d0 = sState d /\
               wifiManagerSetupStart d0 = wifiManagerSetupStart d)
    by (subst d0; destruct (mqttLost e); auto).
  clearbody d0. destruct E0 as (W0 & O0 & R0 & S0 & T0).
  rewrite <- R0, <- T0.
  destruct (normalTick_run e d0) as [F2 _]. cbv zeta in F2. rewrite F2.
  destruct (gpioLoop_run e d0) as [G _]. cbv zeta in G. rewrite G. clear G.
  rewrite Hs, <- S0. replace (if sState d0 then negb (sState d0) else sState d0) with false
    by (destruct (sState d0); reflexivity).
  destruct (wifimanagerLoop_run e (set_sState (sState d0) d0)) as [W _].
  cbv zeta in W. rewrite W. clear W.
  unfold after_wm_callback. rewrite Hcb.
  destruct d0 as [off0 conn0 run0 st0 ota0 otast0 rst0 att0 dl0 mom0 ss0 ls0
                  trig0 mt0 mc0 relay0 green0 red0].
  cbn in W0, O0, S0, R0, T0 |- *. subst run0 ota0 ss0 rst0 st0. clear F F2.
  cbn. rewrite ?mqttLoop_quiet by exact Hin.
  case_bool (CONFIG_TIMEOUT_MS <? usub (millis e) (wifiManagerSetupStart d));
  case_bool (wifiConnected e); case_bool conn0; cbn;
  try match goal with |- context [final_state mqttReconnect e ?x] =>
    destruct (mqttReconnect_run e x) as (_ & _ & Hf); rewrite Hf end;
  cbn; case_ifs; rewrite ?orb_false_r, ?orb_true_r; auto.
Qed.

Lemma ota_tick e d (Ho : otaRunning d = true) :
  let d' := final_state loop e d in
  restart d' = restart d || (OTA_TIMEOUT_MS <? usub (millis e) (otaStart d)) /\
  otaRunning d' = true /\ otaStart d' = otaStart d.
Proof.
  destruct (loop_run e d) as [F _]. cbv zeta in F |- *. rewrite F, Ho.
  set (d0 := if mqttLost e then set_mqttConnected false d else d).
  assert (E0 : otaRunning d0 = true /\ restart d0 = restart d /\ otaStart d0 = otaStart d)
    by (subst d0; destruct (mqttLost e); auto).
  clearbody d0. destruct E0 as (O0 & R0 & T0).
  destruct (otaTick_run e d0) as (_ & R & O & T & _).
  rewrite R, O, T, R0, T0, O0. auto.
Qed.

Lemma provisioning_run es : forall d,
  wifiManagerSetupRunning d = true -> otaRunning d = false -> restart d = false ->
  Forall (fun e => wmCallback e = None /\ inbound e = [] /\ switchLow e = sState d) es ->
  first_restart es d =
    find (fun e => CONFIG_TIMEOUT_MS <? usub (millis e) (wifiManagerSetupStart d)) es.
Proof.
  induction es as [|e es IH]; intros d Hw Ho Hr Hq; [reflexivity|].
  inversion Hq as [|? ? (Hcb & Hin & Hs) Hq']; subst.
  cbn [first_restart find]. rewrite existsb_restart.
  destruct (provisioning_tick e d Hw Ho Hcb Hin Hs) as (R & W & T & O & S).
  rewrite R, Hr. cbn [orb].
  match goal with |- (if ?b then _ else _) = _ => destruct b eqn:Et end;
    [reflexivity|].
  rewrite <- T. apply IH; [exact W | exact O | rewrite R, Hr; reflexivity |].
  rewrite S. exact Hq'.
Qed.

Lemma ota_run es : forall d,
  otaRunning d = true -> restart d = false ->
  first_restart es d = find (fun e => OTA_TIMEOUT_MS <? usub (millis e) (otaStart d)) es.
Proof.
  induction es as [|e es IH]; intros d Ho Hr; [reflexivity|].
  cbn [first_restart find]. rewrite existsb_restart.
  destruct (ota_tick e d Ho) as (R & O & T).
  rewrite R, Hr. cbn [orb].
  match goal with |- (if ?b then _ else _) = _ => destruct b eqn:Et end;
    [reflexivity|].
  rewrite <- T. apply IH; [exact O | rewrite R, Hr; reflexivity].
Qed.

Lemma usub_elapsed T el :
  0 <= T < ULONG_MOD -> 0 <= el < ULONG_MOD -> usub ((T + el) mod ULONG_MOD) T = el.
Proof.
  intros HT Hel. unfold usub.
  rewrite Zminus_mod_idemp_l. replace (T + el - T) with el by lia.
  apply Z.mod_small. exact Hel.
Qed.

(** C6: once provisioning (portal running, no update) or update mode has
    been entered at time T and no further input arrives (no portal callback,
    no switch transition, no inbound command; connectivity may come and go),
    [ESP.restart()] is called at the first pass of loop() whose elapsed time
    [millis() - T], in unsigned 32-bit arithmetic, exceeds 300000 ms, and at
    no earlier pass. A pass at clock [(T + el) mod 2^32] sees the elapsed
    time [el] itself, across the wraparound of the counter. *)
Theorem C6_mode_timeout :
  (forall es d,
     wifiManagerSetupRunning d = true -> otaRunning d = false -> restart d = false ->
     Forall (fun e => wmCallback e = None /\ inbound e = [] /\ switchLow e = sState d) es ->
     first_restart es d =
       find (fun e => CONFIG_TIMEOUT_MS <? usub (millis e) (wifiManagerSetupStart d)) es) /\
  (forall es d,
     otaRunning d = true -> restart d = false ->
     first_restart es d =
       find (fun e => OTA_TIMEOUT_MS <? usub (millis e) (otaStart d)) es) /\
  (forall T el,
     0 <= T < ULONG_MOD -> 0 <= el < ULONG_MOD -> usub ((T + el) mod ULONG_MOD) T = el).
Proof.
  split; [exact provisioning_run|]. split; [exact ota_run|]. exact usub_elapsed.
Qed.

Lemma C6_mode_timeout_witness :
  let T := 4294967000 in
  let d := set_wifiManagerSetupRunning true (set_wifiManagerSetupStart T power_on) in
  let e1 := quiet_env ((T + 200000) mod ULONG_MOD) false in
  let e2 := quiet_env ((T + 300000) mod ULONG_MOD) false in
  let e3 := quiet_env ((T + 300001) mod ULONG_MOD) false in
  first_restart [e1; e2; e3] d = Some e3 /\
  usub ((T + 300001) mod ULONG_MOD) T = 300001.
Proof.
  intros T d e1 e2 e3. destruct C6_mode_timeout as (Hprov & _ & Harith).
  split.
  - rewrite (Hprov [e1; e2; e3] d eq_refl eq_refl eq_refl).
    + vm_compute. reflexivity.
    + repeat constructor.
  - apply Harith; unfold T, ULONG_MOD; lia.
Defined.

(** ** C8: order of the work inside one pass of loop() *)

(** C8 (counterexample): in a pass at the provisioning timeout, online and
    connected, the timeout's [stopConfigPortal()] comes before the MQTT
    servicing ([mqttClient.loop()]): the mode-timeout check runs inside
    wifimanagerLoop(), before connectivity is serviced. *)
Lemma C8_timeout_before_mqtt_counterexample :
  let d := set_offline false (set_mqttConnected true
             (set_wifiManagerSetupRunning true (set_wifiManagerSetupStart 0 power_on))) in
  let e := mkEnv 300001 false None None true false false [] 0 in
  trace loop e d = [EvWmProcess; EvStopConfigPortal; EvMqttLoop; EvRestart].
Proof. vm_compute. reflexivity. Qed.

(** C8 (amended): a pass of loop() in update mode emits only
    [ArduinoOTA.handle()] before its restart check. Otherwise it emits the
    switch processing of gpioLoop() first, then [wifiManager.process()]
    followed by portal events only (the provisioning timeout's
    [stopConfigPortal()]), then the MQTT servicing, which emits none of these
    markers. [ESP.restart()] is the last event of the pass, present exactly
    when the restart flag is set at its end, so a restart requested during
    the pass is honored after the rest of the pass. *)
Theorem C8_tick_order (e : Env) (d : Dev) :
  exists lw lm,
    trace loop e d =
      (if otaRunning d then [EvOtaHandle]
       else trace gpioLoop e (if mqttLost e then set_mqttConnected false d else d) ++
            EvWmProcess :: lw ++ lm)
      ++ (if restart (final_state loop e d) then [EvRestart] else []) /\
    Forall (fun ev => tick_marker ev = false)
      (trace gpioLoop e (if mqttLost e then set_mqttConnected false d else d)) /\
    Forall (fun ev => ev = EvTickerAttach 1000 \/ ev = EvStopConfigPortal) lw /\
    Forall (fun ev => tick_marker ev = false) lm.
Proof.
  destruct (loop_run e d) as [F T]. cbv zeta in F, T. rewrite F, T.
  set (d0 := if mqttLost e then set_mqttConnected false d else d).
  destruct (gpioLoop_no_marker e d0 I) as [_ G].
  destruct (otaRunning d).
  - destruct (otaTick_run e d0) as [Ht _]. rewrite Ht.
    exists [], []. repeat split; auto.
  - destruct (normalTick_run e d0) as [_ Ht]. rewrite Ht.
    set (d1 := final_state gpioLoop e d0).
    destruct (wifimanagerLoop_run e d1) as [_ W]. cbv zeta in W. rewrite W.
    set (d2 := final_state wifimanagerLoop e d1).
    eexists _, (if offline d2 then [] else trace mqttLoop e d2).
    split; [reflexivity|]. split; [exact G|]. split.
    + destruct (_ && _); [constructor; [right; reflexivity | constructor] | constructor].
    + destruct (offline d2); [constructor|].
      exact (proj2 (mqttLoop_no_marker e d2 I)).
Qed.

(** ** C10: the relay output, the green LED and lState *)

Lemma mqttCommunicate_relay : respects relay_inv (fun _ => True) mqttCommunicate.
Proof. unfold relay_inv, mqttCommunicate. resp_auto. Qed.
Lemma mqttCommunicate_green : respects green_inv (fun _ => True) mqttCommunicate.
Proof. unfold green_inv, mqttCommunicate. resp_auto. Qed.

Lemma enableL_relay : respects relay_inv (fun _ => True) enableL.
Proof.
  intros e d _. destruct (enableL_run e d) as [F _]. rewrite F.
  split; [|apply Forall_forall; auto].
  apply (mqttCommunicate_relay e _). reflexivity.
Qed.
Lemma disableL_relay : respects relay_inv (fun _ => True) disableL.
Proof.
  intros e d _. destruct (disableL_run e d) as [F _]. rewrite F.
  split; [|apply Forall_forall; auto].
  apply (mqttCommunicate_relay e _). reflexivity.
Qed.
Lemma enableL_green : respects green_inv (fun _ => True) enableL.
Proof.
  intros e d _. destruct (enableL_run e d) as [F _]. rewrite F.
  split; [|apply Forall_forall; auto].
  apply (mqttCommunicate_green e _). reflexivity.
Qed.
Lemma disableL_green : respects green_inv (fun _ => True) disableL.
Proof.
  intros e d _. destruct (disableL_run e d) as [F _]. rewrite F.
  split; [|apply Forall_forall; auto].
  apply (mqttCommunicate_green e _). reflexivity.
Qed.
#[local] Hint Resolve mqttCommunicate_relay mqttCommunicate_green enableL_relay
  disableL_relay enableL_green disableL_green : dozy_resp.

Lemma startWifiManager_relay b : respects relay_inv (fun _ => True) (startWifiManager b).
Proof. unfold relay_inv, startWifiManager, wifiManagerSetupStarted. resp_auto. Qed.
Lemma startWifiManager_green b : respects green_inv (fun _ => True) (startWifiManager b).
Proof. unfold green_inv, startWifiManager, wifiManagerSetupStarted. resp_auto. Qed.
Lemma mqttReconnect_relay : respects relay_inv (fun _ => True) mqttReconnect.
Proof. unfold relay_inv, mqttReconnect. resp_auto. Qed.
Lemma mqttReconnect_green : respects green_inv (fun _ => True) mqttReconnect.
Proof. unfold green_inv, mqttReconnect. resp_auto. Qed.
#[local] Hint Resolve startWifiManager_relay startWifiManager_green
  mqttReconnect_relay mqttReconnect_green : dozy_resp.

Lemma mqttCallback_relay p : respects relay_inv (fun _ => True) (mqttCallback p).
Proof. unfold relay_inv, mqttCallback. resp_auto. Qed.
Lemma mqttCallback_green p : respects green_inv (fun _ => True) (mqttCallback p).
Proof. unfold green_inv, mqttCallback. resp_auto. Qed.
#[local] Hint Resolve mqttCallback_relay mqttCallback_green : dozy_resp.

Lemma mqttLoop_relay : respects relay_inv (fun _ => True) mqttLoop.
Proof. unfold relay_inv, mqttLoop. resp_auto. Qed.
Lemma mqttLoop_green : respects green_inv (fun _ => True) mqttLoop.
Proof. unfold green_inv, mqttLoop. resp_auto. Qed.
Lemma gpioLoop_relay : respects relay_inv (fun _ => True) gpioLoop.
Proof.
  unfold relay_inv, gpioLoop, readSwitch, switchAction, manualSetupActivator. resp_auto.
Qed.
Lemma gpioLoop_green : respects green_inv (fun _ => True) gpioLoop.
Proof.
  unfold green_inv, gpioLoop, readSwitch, switchAction, manualSetupActivator. resp_auto.
Qed.
Lemma wifimanagerLoop_relay : respects relay_inv (fun _ => True) wifimanagerLoop.
Proof.
  unfold relay_inv, wifimanagerLoop, saveParamsCallback, wifiManagerSetupStarted,
    wifiManagerSetupStopped. resp_auto.
Qed.
Lemma wifimanagerLoop_green : respects green_inv (fun _ => True) wifimanagerLoop.
Proof.
  unfold green_inv, wifimanagerLoop, saveParamsCallback, wifiManagerSetupStarted,
    wifiManagerSetupStopped. resp_auto.
Qed.
#[local] Hint Resolve mqttLoop_relay mqttLoop_green gpioLoop_relay gpioLoop_green
  wifimanagerLoop_relay wifimanagerLoop_green : dozy_resp.

Lemma otaOnProgress_relay : respects relay_inv (fun _ => True) otaOnProgress.
Proof. unfold relay_inv, otaOnProgress. resp_auto. Qed.
Lemma ledTick_relay : respects relay_inv (fun _ => True) ledTick.
Proof. unfold relay_inv, ledTick. resp_auto. Qed.
Lemma ledTick_green : respects green_inv (fun _ => True) ledTick.
Proof. unfold green_inv, ledTick. resp_auto. Qed.
#[local] Hint Resolve otaOnProgress_relay : dozy_resp.

Lemma otaTick_relay : respects relay_inv (fun _ => True) otaTick.
Proof. unfold relay_inv, otaTick. resp_auto. Qed.
Lemma normalTick_relay : respects relay_inv (fun _ => True) normalTick.
Proof. unfold relay_inv, normalTick. resp_auto. Qed.
Lemma normalTick_green : respects green_inv (fun _ => True) normalTick.
Proof. unfold green_inv, normalTick. resp_auto. Qed.
#[local] Hint Resolve otaTick_relay normalTick_relay normalTick_green : dozy_resp.

Lemma loop_relay : respects relay_inv (fun _ => True) loop.
Proof. unfold relay_inv, loop. resp_auto. Qed.

Lemma loop_green e d :
  otaRunning d = false -> green_inv d -> green_inv (final_state loop e d).
Proof.
  intros Ho Hg. destruct (loop_run e d) as [F _]. cbv zeta in F. rewrite F, Ho.
  apply (normalTick_green e _).
  unfold green_inv in *. destruct (mqttLost e); exact Hg.
Qed.

Lemma setup_inv e :
  relay_inv (final_state setup e power_on) /\ green_inv (final_state setup e power_on).
Proof.
  unfold relay_inv, green_inv, setup, startWifiManager, wifiManagerSetupStarted, final_state,
    when, skip, get, ask, modify, emit, bind, ret; cbn.
  destruct (configMomentary e), (wifiConnected e); cbn; split; reflexivity.
Qed.

(** Functions other than enableL and disableL leave the relay output and
    lState as they are. *)
Definition keeps_relay {A} (m : M A) : Prop :=
  forall r l, respects (fun d => pinRelay d = r /\ lState d = l) (fun _ => True) m.

Lemma otaOnProgress_keeps : keeps_relay otaOnProgress.
Proof. intros r l. unfold otaOnProgress. resp_auto. Qed.
Lemma ledTick_keeps : keeps_relay ledTick.
Proof. intros r l. unfold ledTick. resp_auto. Qed.
Lemma mqttCommunicate_keeps : keeps_relay mqttCommunicate.
Proof. intros r l. unfold mqttCommunicate. resp_auto. Qed.
Lemma startWifiManager_keeps b : keeps_relay (startWifiManager b).
Proof. intros r l. unfold startWifiManager, wifiManagerSetupStarted. resp_auto. Qed.
Lemma readSwitch_keeps : keeps_relay readSwitch.
Proof. intros r l. unfold readSwitch. resp_auto. Qed.
#[local] Hint Resolve otaOnProgress_keeps startWifiManager_keeps : dozy_resp.
Lemma manualSetupActivator_keeps : keeps_relay manualSetupActivator.
Proof. intros r l. unfold manualSetupActivator. resp_auto. Qed.
Lemma wifimanagerLoop_keeps : keeps_relay wifimanagerLoop.
Proof.
  intros r l. unfold wifimanagerLoop, saveParamsCallback, wifiManagerSetupStarted,
    wifiManagerSetupStopped. resp_auto.
Qed.
Lemma mqttReconnect_keeps : keeps_relay mqttReconnect.
Proof. intros r l. unfold mqttReconnect. resp_auto. Qed.
Lemma otaTick_keeps : keeps_relay otaTick.
Proof. intros r l. unfold otaTick. resp_auto. Qed.

(** C10 (counterexample): from power-on, setup() and three passes of
    loop() (connect and receive "1", receive "ota", then one progress
    callback of the update) leave lState true and the relay on, but the
    green LED off (HIGH): the onProgress callback drives the green LED
    without regard to lState. *)
Lemma C10_ota_progress_counterexample :
  let boot := mkEnv 0 false None None false false false [] 0 in
  let e1 := mkEnv 100 false None None true false true ["1"%string] 0 in
  let e2 := mkEnv 200 false None None true false true ["ota"%string] 0 in
  let e3 := mkEnv 300 false None None true false true [] 1 in
  let d := fst (steps loop [e1; e2; e3] (final_state setup boot power_on)) in
  lState d = true /\ pinRelay d = HIGH /\ pinGreen d = HIGH /\ otaRunning d = true.
Proof. vm_compute. repeat split. Qed.

(** C10 (amended): setup() from power-on leaves the relay output equal to
    lState and the green LED lit exactly when lState. Every pass of loop(),
    the LED ticker and the update's progress callback keep the relay output
    equal to lState; every pass outside update mode and the LED ticker keep
    the green LED lit exactly when lState (the progress callback does not).
    enableL and disableL set relay, green LED and lState together; the
    other functions change neither the relay output nor lState. *)
Theorem C10_relay_green_invariant :
  (forall e, relay_inv (final_state setup e power_on) /\
             green_inv (final_state setup e power_on)) /\
  (forall e d, relay_inv d -> relay_inv (final_state loop e d)) /\
  (forall e d, relay_inv d ->
     relay_inv (final_state ledTick e d) /\ relay_inv (final_state otaOnProgress e d)) /\
  (forall e d, otaRunning d = false -> green_inv d -> green_inv (final_state loop e d)) /\
  (forall e d, green_inv d -> green_inv (final_state ledTick e d)) /\
  (forall e d,
     pinRelay (final_state enableL e d) = HIGH /\ lState (final_state enableL e d) = true /\
     pinGreen (final_state enableL e d) = LOW /\
     pinRelay (final_state disableL e d) = LOW /\ lState (final_state disableL e d) = false /\
     pinGreen (final_state disableL e d) = HIGH) /\
  keeps_relay mqttCommunicate /\ keeps_relay readSwitch /\
  keeps_relay manualSetupActivator /\ keeps_relay wifimanagerLoop /\
  keeps_relay mqttReconnect /\ keeps_relay otaTick /\ keeps_relay otaOnProgress /\
  keeps_relay ledTick /\ (forall b, keeps_relay (startWifiManager b)).
Proof.
  split; [exact setup_inv|].
  split; [intros e d H; exact (proj1 (loop_relay e d H))|].
  split; [intros e d H; split;
          [exact (proj1 (ledTick_relay e d H)) | exact (proj1 (otaOnProgress_relay e d H))]|].
  split; [exact loop_green|].
  split; [intros e d H; exact (proj1 (ledTick_green e d H))|].
  split.
  - intros e d.
    unfold enableL, disableL, mqttCommunicate, final_state,
      when, skip, get, ask, modify, emit, bind, ret; cbn.
    destruct (offline d), (mqttConnected d); cbn; repeat split.
  - exact (conj mqttCommunicate_keeps (conj readSwitch_keeps
             (conj manualSetupActivator_keeps (conj wifimanagerLoop_keeps
             (conj mqttReconnect_keeps (conj otaTick_keeps (conj otaOnProgress_keeps
             (conj ledTick_keeps startWifiManager_keeps)))))))).
Qed.

(** ** The configuration file *)

Lemma cstring_idem s : cstring (cstring s) = cstring s.
Proof.
  induction s as [|c s IH]; [reflexivity|]. cbn.
  destruct (Ascii.eqb c "000"%char) eqn:E; [reflexivity|]. cbn. rewrite E, IH. reflexivity.
Qed.

Lemma strlen_cstring s : strlen (cstring s) = strlen s.
Proof. unfold strlen. rewrite cstring_idem. reflexivity. Qed.

Lemma strcpy_fits size s :
  (strlen s < size)%nat -> strcpy size s = Some (cstring s).
Proof. intros H. unfold strcpy. apply Nat.ltb_lt in H. rewrite H. reflexivity. Qed.

Lemma loadField_cstring doc k size x cur :
  jsonLookup k doc = Some (cstring x) -> (strlen x < size)%nat ->
  loadField doc k size cur = Some (if Nat.ltb 0 (strlen x) then cstring x else cur).
Proof.
  intros H1 H2. unfold loadField. rewrite H1, strlen_cstring.
  destruct (Nat.ltb 0 (strlen x)); [|reflexivity].
  rewrite strcpy_fits by (rewrite strlen_cstring; exact H2).
  rewrite cstring_idem. reflexivity.
Qed.

Lemma saveParamsConfig_some pv s :
  saveParamsConfig pv = Some s ->
  (strlen (pvServer pv) < FIELD_SIZE /\ strlen (pvPort pv) < PORT_SIZE /\
   strlen (pvClientName pv) < FIELD_SIZE /\ strlen (pvUser pv) < FIELD_SIZE /\
   strlen (pvPassword pv) < FIELD_SIZE /\ strlen (pvOutTopic pv) < FIELD_SIZE /\
   strlen (pvInTopic pv) < FIELD_SIZE)%nat /\
  s = mkConfig (cstring (pvServer pv)) (cstring (pvPort pv)) (cstring (pvClientName pv))
               (cstring (pvUser pv)) (cstring (pvPassword pv)) (cstring (pvOutTopic pv))
               (cstring (pvInTopic pv)) (isTrue (pvMomentary pv)).
Proof.
  unfold saveParamsConfig, strcpy.
  destruct (Nat.ltb_spec (strlen (pvServer pv)) FIELD_SIZE);
  destruct (Nat.ltb_spec (strlen (pvPort pv)) PORT_SIZE);
  destruct (Nat.ltb_spec (strlen (pvClientName pv)) FIELD_SIZE);
  destruct (Nat.ltb_spec (strlen (pvUser pv)) FIELD_SIZE);
  destruct (Nat.ltb_spec (strlen (pvPassword pv)) FIELD_SIZE);
  destruct (Nat.ltb_spec (strlen (pvOutTopic pv)) FIELD_SIZE);
  destruct (Nat.ltb_spec (strlen (pvInTopic pv)) FIELD_SIZE);
  intros Hsave; try discriminate Hsave.
  injection Hsave as <-. repeat split; assumption.
Qed.

Lemma saveParamsConfig_none pv :
  saveParamsConfig pv = None <->
   (FIELD_SIZE <= strlen (pvServer pv) \/ PORT_SIZE <= strlen (pvPort pv) \/
    FIELD_SIZE <= strlen (pvClientName pv) \/ FIELD_SIZE <= strlen (pvUser pv) \/
    FIELD_SIZE <= strlen (pvPassword pv) \/ FIELD_SIZE <= strlen (pvOutTopic pv) \/
    FIELD_SIZE <= strlen (pvInTopic pv))%nat.
Proof.
  unfold saveParamsConfig, strcpy.
  destruct (Nat.ltb_spec (strlen (pvServer pv)) FIELD_SIZE);
  destruct (Nat.ltb_spec (strlen (pvPort pv)) PORT_SIZE);
  destruct (Nat.ltb_spec (strlen (pvClientName pv)) FIELD_SIZE);
  destruct (Nat.ltb_spec (strlen (pvUser pv)) FIELD_SIZE);
  destruct (Nat.ltb_spec (strlen (pvPassword pv)) FIELD_SIZE);
  destruct (Nat.ltb_spec (strlen (pvOutTopic pv)) FIELD_SIZE);
  destruct (Nat.ltb_spec (strlen (pvInTopic pv)) FIELD_SIZE);
  split; intros Hn; try discriminate Hn; try reflexivity; lia.
Qed.

Lemma loadConfig_saved pv apName c :
  forall s, saveParamsConfig pv = Some s -> (strlen apName < FIELD_SIZE)%nat ->
   loadConfig apName (Some (configJson s)) c =
   Some (mkConfig
    (if Nat.ltb 0 (strlen (pvServer pv)) then cstring (pvServer pv) else cfgServer c)
    (if Nat.ltb 0 (strlen (pvPort pv)) then cstring (pvPort pv) else cfgPort c)
    (if Nat.ltb 0 (strlen (pvClientName pv)) then cstring (pvClientName pv)
     else cstring apName)
    (if Nat.ltb 0 (strlen (pvUser pv)) then cstring (pvUser pv) else cfgUser c)
    (if Nat.ltb 0 (strlen (pvPassword pv)) then cstring (pvPassword pv) else cfgPassword c)
    (if Nat.ltb 0 (strlen (pvOutTopic pv)) then cstring (pvOutTopic pv) else cfgOutTopic c)
    (if Nat.ltb 0 (strlen (pvInTopic pv)) then cstring (pvInTopic pv) else cfgInTopic c)
    (isTrue (pvMomentary pv))).
Proof.
  intros s Hs Hap.
  destruct (saveParamsConfig_some pv s Hs)
  as [[Hs1 [Hs2 [Hs3 [Hs4 [Hs5 [Hs6 Hs7]]]]]] ->].
  unfold loadConfig. rewrite (strcpy_fits _ _ Hap).
  rewrite (loadField_cstring _ "mqtt_server" _ (pvServer pv)) by easy.
  rewrite (loadField_cstring _ "mqtt_port" _ (pvPort pv)) by easy.
  rewrite (loadField_cstring _ "mqtt_client_name" _ (pvClientName pv)) by easy.
  rewrite (loadField_cstring _ "mqtt_user" _ (pvUser pv)) by easy.
  rewrite (loadField_cstring _ "mqtt_password" _ (pvPassword pv)) by easy.
  rewrite (loadField_cstring _ "mqtt_out_topic" _ (pvOutTopic pv)) by easy.
  rewrite (loadField_cstring _ "mqtt_in_topic" _ (pvInTopic pv)) by easy.
  unfold loadMomentary. cbn.
  destruct (isTrue (pvMomentary pv)); reflexivity.
Qed.

(** Settings saved from the portal by saveParamsCallback() and read back by
    startWifiManager(false) at the next boot. Saving overflows a global
    buffer (undefined behaviour, [None]) exactly when a text value has 40 or
    more characters before its first NUL, or 6 or more for the port. When
    saving succeeds and the access point name fits, the read-back succeeds
    and each text setting is the saved value cut at its first NUL when that
    is non-empty, and otherwise the value the device had before loading (for
    the client name, the access point name); the momentary-switch flag is true
    exactly when the checkbox value was "true". *)
Theorem config_save_load (pv : PortalValues) (apName : string) (c : Config) :
  (saveParamsConfig pv = None <->
   (FIELD_SIZE <= strlen (pvServer pv) \/ PORT_SIZE <= strlen (pvPort pv) \/
    FIELD_SIZE <= strlen (pvClientName pv) \/ FIELD_SIZE <= strlen (pvUser pv) \/
    FIELD_SIZE <= strlen (pvPassword pv) \/ FIELD_SIZE <= strlen (pvOutTopic pv) \/
    FIELD_SIZE <= strlen (pvInTopic pv))%nat) /\
  (forall s, saveParamsConfig pv = Some s -> (strlen apName < FIELD_SIZE)%nat ->
   loadConfig apName (Some (configJson s)) c =
   Some (mkConfig
    (if Nat.ltb 0 (strlen (pvServer pv)) then cstring (pvServer pv) else cfgServer c)
    (if Nat.ltb 0 (strlen (pvPort pv)) then cstring (pvPort pv) else cfgPort c)
    (if Nat.ltb 0 (strlen (pvClientName pv)) then cstring (pvClientName pv)
     else cstring apName)
    (if Nat.ltb 0 (strlen (pvUser pv)) then cstring (pvUser pv) else cfgUser c)
    (if Nat.ltb 0 (strlen (pvPassword pv)) then cstring (pvPassword pv) else cfgPassword c)
    (if Nat.ltb 0 (strlen (pvOutTopic pv)) then cstring (pvOutTopic pv) else cfgOutTopic c)
    (if Nat.ltb 0 (strlen (pvInTopic pv)) then cstring (pvInTopic pv) else cfgInTopic c)
    (isTrue (pvMomentary pv)))).
Proof. split; [apply saveParamsConfig_none | apply loadConfig_saved]. Qed.

Lemma config_save_load_witness :
  let pv := mkPortalValues "broker.local" "1883" "" "moist" "secret"
              "house/light/sta" "house/light/cmd" "false" in
  saveParamsConfig (mkPortalValues "broker.local" "188300" "" "" "" "" "" "") = None /\
  exists s, saveParamsConfig pv = Some s /\
  loadConfig "Dozy-1a2b3c" (Some (configJson s)) (mkConfig "" "" "" "" "" "" "" true) =
  Some (mkConfig "broker.local" "1883" "Dozy-1a2b3c" "moist" "secret"
                 "house/light/sta" "house/light/cmd" false).
Proof.
  intros pv. split.
  - apply (proj1 (config_save_load
      (mkPortalValues "broker.local" "188300" "" "" "" "" "" "") "Dozy-1a2b3c"
      (mkConfig "" "" "" "" "" "" "" true))).
    right. left. vm_compute. lia.
  - eexists. split; [vm_compute; reflexivity|].
    rewrite (proj2 (config_save_load pv "Dozy-1a2b3c" (mkConfig "" "" "" "" "" "" "" true)))
      by (vm_compute; first [reflexivity | lia]).
    vm_compute. reflexivity.
Defined.

(** With every text value non-empty and short enough for its buffer (fewer
    than 40 characters, 6 for the port) and an access point name that fits,
    saving succeeds and the settings read back at boot are exactly the
    settings saved, whatever the device held before. *)
Theorem config_roundtrip (pv : PortalValues) (apName : string) (c : Config)
  (Hs : (0 < strlen (pvServer pv) < FIELD_SIZE)%nat)
  (Hp : (0 < strlen (pvPort pv) < PORT_SIZE)%nat)
  (Hn : (0 < strlen (pvClientName pv) < FIELD_SIZE)%nat)
  (Hu : (0 < strlen (pvUser pv) < FIELD_SIZE)%nat)
  (Hw : (0 < strlen (pvPassword pv) < FIELD_SIZE)%nat)
  (Ho : (0 < strlen (pvOutTopic pv) < FIELD_SIZE)%nat)
  (Hi : (0 < strlen (pvInTopic pv) < FIELD_SIZE)%nat)
  (Hap : (strlen apName < FIELD_SIZE)%nat) :
  exists s, saveParamsConfig pv = Some s /\
            loadConfig apName (Some (configJson s)) c = Some s.
Proof.
  assert (Hsome : saveParamsConfig pv =
    Some (mkConfig (cstring (pvServer pv)) (cstring (pvPort pv)) (cstring (pvClientName pv))
      (cstring (pvUser pv)) (cstring (pvPassword pv)) (cstring (pvOutTopic pv))
      (cstring (pvInTopic pv)) (isTrue (pvMomentary pv)))).
  { unfold saveParamsConfig.
    rewrite !strcpy_fits by lia. reflexivity. }
  eexists. split; [exact Hsome|].
  rewrite (loadConfig_saved pv apName c _ Hsome Hap).
  destruct Hs as [Hs _], Hp as [Hp _], Hn as [Hn _], Hu as [Hu _],
           Hw as [Hw _], Ho as [Ho _], Hi as [Hi _].
  apply Nat.ltb_lt in Hs, Hp, Hn, Hu, Hw, Ho, Hi.
  rewrite Hs, Hp, Hn, Hu, Hw, Ho, Hi. reflexivity.
Qed.

Lemma config_roundtrip_witness :
  let pv := mkPortalValues "broker.local" "1883" "stairs" "moist" "secret"
              "house/light/sta" "house/light/cmd" "true" in
  (0 < strlen (pvServer pv) < FIELD_SIZE)%nat /\
  exists s, saveParamsConfig pv = Some s /\
  loadConfig "Dozy-1a2b3c" (Some (configJson s)) (mkConfig "" "" "" "" "" "" "" false)
    = Some s.
Proof.
  intros pv. split; [vm_compute; lia|].
  apply config_roundtrip; vm_compute; lia.
Defined.

(** ** What a pass of loop() publishes *)

Lemma mqttCommunicate_payload : respects (fun _ => True) state_payload mqttCommunicate.
Proof.
  intros e d _. unfold mqttCommunicate, final_state, trace, when, skip, get, ask,
    modify, emit, bind, ret; cbn.
  split; [exact I|].
  destruct (offline d), (mqttConnected d); cbn; [constructor|constructor| |constructor].
  constructor; [|constructor]. cbn.
  destruct (lState d), (gpioTrigger d); cbn; tauto.
Qed.
#[local] Hint Resolve mqttCommunicate_payload : dozy_resp.

Lemma enableL_payload : respects (fun _ => True) state_payload enableL.
Proof. unfold enableL. resp_auto. Qed.
Lemma disableL_payload : respects (fun _ => True) state_payload disableL.
Proof. unfold disableL. resp_auto. Qed.
Lemma startWifiManager_payload b :
  respects (fun _ => True) state_payload (startWifiManager b).
Proof. unfold startWifiManager, wifiManagerSetupStarted. resp_auto. Qed.
#[local] Hint Resolve enableL_payload disableL_payload startWifiManager_payload : dozy_resp.
Lemma mqttCallback_payload p : respects (fun _ => True) state_payload (mqttCallback p).
Proof. unfold mqttCallback. resp_auto. Qed.
Lemma mqttReconnect_payload : respects (fun _ => True) state_payload mqttReconnect.
Proof. unfold mqttReconnect. resp_auto. Qed.
#[local] Hint Resolve mqttCallback_payload mqttReconnect_payload : dozy_resp.
Lemma gpioLoop_payload : respects (fun _ => True) state_payload gpioLoop.
Proof. unfold gpioLoop, readSwitch, switchAction, manualSetupActivator. resp_auto. Qed.
Lemma wifimanagerLoop_payload : respects (fun _ => True) state_payload wifimanagerLoop.
Proof.
  unfold wifimanagerLoop, saveParamsCallback, wifiManagerSetupStarted,
    wifiManagerSetupStopped. resp_auto.
Qed.
Lemma mqttLoop_payload : respects (fun _ => True) state_payload mqttLoop.
Proof. unfold mqttLoop. resp_auto. Qed.
Lemma otaOnProgress_payload : respects (fun _ => True) state_payload otaOnProgress.
Proof. unfold otaOnProgress. resp_auto. Qed.
#[local] Hint Resolve gpioLoop_payload wifimanagerLoop_payload mqttLoop_payload
  otaOnProgress_payload : dozy_resp.
Lemma otaTick_payload : respects (fun _ => True) state_payload otaTick.
Proof. unfold otaTick. resp_auto. Qed.
Lemma normalTick_payload : respects (fun _ => True) state_payload normalTick.
Proof. unfold normalTick. resp_auto. Qed.
#[local] Hint Resolve otaTick_payload normalTick_payload : dozy_resp.
Lemma loop_payload : respects (fun _ => True) state_payload loop.
Proof. unfold loop. resp_auto. Qed.

(** Every message a pass of loop() publishes on the output topic is one of
    "0", "1", "0." and "1.", whatever the switch, the commands received and
    the connectivity. *)
Theorem loop_publishes_state_only (e : Env) (d : Dev) :
  Forall (fun p => In p ["0"; "1"; "0."; "1."]%string) (publishes (trace loop e d)).
Proof.
  destruct (loop_payload e d I) as [_ H].
  induction (trace loop e d) as [|ev l IH]; [constructor|].
  inversion H as [|? ? Hev Hl]; subst. cbn.
  destruct ev; cbn; try (apply IH; exact Hl).
  constructor; [exact Hev | apply IH; exact Hl].
Qed.

(** ** Flags the firmware never clears, bounds it keeps *)

Ltac resp_intuition := respects_steps; cbn; intuition.

Section ModeFlags.
Variables w o r : bool.
Lemma mqttCommunicate_flags : respects (mode_flags w o r) (fun _ => True) mqttCommunicate.
Proof. unfold mode_flags, mqttCommunicate. resp_intuition. Qed.
#[local] Hint Resolve mqttCommunicate_flags : dozy_resp.
Lemma enableL_flags : respects (mode_flags w o r) (fun _ => True) enableL.
Proof. unfold mode_flags, enableL. resp_intuition. Qed.
#[local] Hint Resolve enableL_flags : dozy_resp.
Lemma disableL_flags : respects (mode_flags w o r) (fun _ => True) disableL.
Proof. unfold mode_flags, disableL. resp_intuition. Qed.
#[local] Hint Resolve disableL_flags : dozy_resp.
Lemma startWifiManager_flags b : respects (mode_flags w o r) (fun _ => True) (startWifiManager b).
Proof. unfold mode_flags, startWifiManager, wifiManagerSetupStarted. resp_intuition. Qed.
#[local] Hint Resolve startWifiManager_flags : dozy_resp.
Lemma mqttCallback_flags p : respects (mode_flags w o r) (fun _ => True) (mqttCallback p).
Proof. unfold mode_flags, mqttCallback. resp_intuition. Qed.
#[local] Hint Resolve mqttCallback_flags : dozy_resp.
Lemma mqttReconnect_flags : respects (mode_flags w o r) (fun _ => True) mqttReconnect.
Proof. unfold mode_flags, mqttReconnect. resp_intuition. Qed.
#[local] Hint Resolve mqttReconnect_flags : dozy_resp.
Lemma gpioLoop_flags : respects (mode_flags w o r) (fun _ => True) gpioLoop.
Proof. unfold mode_flags, gpioLoop, readSwitch, switchAction, manualSetupActivator. resp_intuition. Qed.
#[local] Hint Resolve gpioLoop_flags : dozy_resp.
Lemma wifimanagerLoop_flags : respects (mode_flags w o r) (fun _ => True) wifimanagerLoop.
Proof. unfold mode_flags, wifimanagerLoop, saveParamsCallback, wifiManagerSetupStarted, wifiManagerSetupStopped. resp_intuition. Qed.
#[local] Hint Resolve wifimanagerLoop_flags : dozy_resp.
Lemma mqttLoop_flags : respects (mode_flags w o r) (fun _ => True) mqttLoop.
Proof. unfold mode_flags, mqttLoop. resp_intuition. Qed.
#[local] Hint Resolve mqttLoop_flags : dozy_resp.
Lemma otaOnProgress_flags : respects (mode_flags w o r) (fun _ => True) otaOnProgress.
Proof. unfold mode_flags, otaOnProgress. resp_intuition. Qed.
#[local] Hint Resolve otaOnProgress_flags : dozy_resp.
Lemma otaTick_flags : respects (mode_flags w o r) (fun _ => True) otaTick.
Proof. unfold mode_flags, otaTick. resp_intuition. Qed.
#[local] Hint Resolve otaTick_flags : dozy_resp.
Lemma normalTick_flags : respects (mode_flags w o r) (fun _ => True) normalTick.
Proof. unfold mode_flags, normalTick. resp_intuition. Qed.
#[local] Hint Resolve normalTick_flags : dozy_resp.
Lemma loop_flags : respects (mode_flags w o r) (fun _ => True) loop.
Proof. unfold mode_flags, loop. resp_intuition. Qed.
#[local] Hint Resolve loop_flags : dozy_resp.
End ModeFlags.

Lemma mqttReconnect_backoff_bound :
  respects backoff_bounded (fun _ => True) mqttReconnect.
Proof.
  intros e d H. unfold backoff_bounded in *.
  destruct (mqttReconnect_run e d) as (_ & _ & F). rewrite F.
  split; [|apply Forall_forall; auto].
  unfold ULONG_MOD. rewrite (Z.mod_small (mqttConnectDelay d + 1000)) by lia.
  destruct (negb (mqttConnected d) && _); [|exact H].
  destruct (connectOk e); cbn; [lia|].
  destruct (60000 <? mqttConnectDelay d + 1000) eqn:E; cbn;
    [lia | apply Z.ltb_ge in E; lia].
Qed.
Lemma mqttCommunicate_backoff : respects backoff_bounded (fun _ => True) mqttCommunicate.
Proof. unfold backoff_bounded, mqttCommunicate. resp_auto. Qed.
#[local] Hint Resolve mqttCommunicate_backoff : dozy_resp.
Lemma enableL_backoff : respects backoff_bounded (fun _ => True) enableL.
Proof. unfold backoff_bounded, enableL. resp_auto. Qed.
#[local] Hint Resolve enableL_backoff : dozy_resp.
Lemma disableL_backoff : respects backoff_bounded (fun _ => True) disableL.
Proof. unfold backoff_bounded, disableL. resp_auto. Qed.
#[local] Hint Resolve disableL_backoff : dozy_resp.
Lemma startWifiManager_backoff b : respects backoff_bounded (fun _ => True) (startWifiManager b).
Proof. unfold backoff_bounded, startWifiManager, wifiManagerSetupStarted. resp_auto. Qed.
#[local] Hint Resolve startWifiManager_backoff : dozy_resp.
Lemma mqttCallback_backoff p : respects backoff_bounded (fun _ => True) (mqttCallback p).
Proof. unfold backoff_bounded, mqttCallback. resp_auto. Qed.
#[local] Hint Resolve mqttCallback_backoff : dozy_resp.
Lemma mqttReconnect_backoff : respects backoff_bounded (fun _ => True) mqttReconnect.
Proof. exact mqttReconnect_backoff_bound. Qed.
#[local] Hint Resolve mqttReconnect_backoff : dozy_resp.
Lemma gpioLoop_backoff : respects backoff_bounded (fun _ => True) gpioLoop.
Proof. unfold backoff_bounded, gpioLoop, readSwitch, switchAction, manualSetupActivator. resp_auto. Qed.
#[local] Hint Resolve gpioLoop_backoff : dozy_resp.
Lemma wifimanagerLoop_backoff : respects backoff_bounded (fun _ => True) wifimanagerLoop.
Proof. unfold backoff_bounded, wifimanagerLoop, saveParamsCallback, wifiManagerSetupStarted, wifiManagerSetupStopped. resp_auto. Qed.
#[local] Hint Resolve wifimanagerLoop_backoff : dozy_resp.
Lemma mqttLoop_backoff : respects backoff_bounded (fun _ => True) mqttLoop.
Proof. unfold backoff_bounded, mqttLoop. resp_auto. Qed.
#[local] Hint Resolve mqttLoop_backoff : dozy_resp.
Lemma otaOnProgress_backoff : respects backoff_bounded (fun _ => True) otaOnProgress.
Proof. unfold backoff_bounded, otaOnProgress. resp_auto. Qed.
#[local] Hint Resolve otaOnProgress_backoff : dozy_resp.
Lemma otaTick_backoff : respects backoff_bounded (fun _ => True) otaTick.
Proof. unfold backoff_bounded, otaTick. resp_auto. Qed.
#[local] Hint Resolve otaTick_backoff : dozy_resp.
Lemma normalTick_backoff : respects backoff_bounded (fun _ => True) normalTick.
Proof. unfold backoff_bounded, normalTick. resp_auto. Qed.
#[local] Hint Resolve normalTick_backoff : dozy_resp.
Lemma loop_backoff : respects backoff_bounded (fun _ => True) loop.
Proof. unfold backoff_bounded, loop. resp_auto. Qed.
#[local] Hint Resolve loop_backoff : dozy_resp.

#[local] Hint Resolve mqttCommunicate_flags enableL_flags disableL_flags
  startWifiManager_flags mqttCallback_flags mqttReconnect_flags gpioLoop_flags
  wifimanagerLoop_flags mqttLoop_flags otaOnProgress_flags otaTick_flags
  normalTick_flags : dozy_resp.

(** Neither the portal flag, nor the update flag, nor the restart request is
    ever cleared by a pass of loop(): provisioning and update mode end only
    with [ESP.restart()], and once [restart] is set every pass ends by
    calling [ESP.restart()]. *)
Theorem loop_mode_flags_sticky (e : Env) (d : Dev) :
  (wifiManagerSetupRunning d = true ->
     wifiManagerSetupRunning (final_state loop e d) = true) /\
  (otaRunning d = true -> otaRunning (final_state loop e d) = true) /\
  (restart d = true ->
     restart (final_state loop e d) = true /\
     exists l, trace loop e d = l ++ [EvRestart]).
Proof.
  destruct (loop_flags (wifiManagerSetupRunning d) (otaRunning d) (restart d) e d)
    as [(W & O & R) _]; [unfold mode_flags; auto|].
  split; [exact W|]. split; [exact O|].
  intros Hr. specialize (R Hr). split; [exact R|].
  destruct (loop_run e d) as [F T]. cbv zeta in F, T.
  rewrite T, <- F, R. eexists; reflexivity.
Qed.

Lemma setup_backoff : respects backoff_bounded (fun _ => True) setup.
Proof. unfold backoff_bounded, setup. resp_auto. Qed.

Lemma steps_keep {A} (P : Dev -> Prop) (Q : Event -> Prop) (m : M A) es :
  respects P Q m -> forall d, P d -> P (fst (steps m es d)).
Proof.
  intros Hm. induction es as [|e es IH]; intros d Hd; [exact Hd|].
  rewrite steps_cons. cbn [fst]. apply IH. exact (proj1 (Hm e d Hd)).
Qed.

(** From boot on, whatever the passes of loop() see, the reconnect back-off
    [mqttConnectDelay] stays within [0, 60000] ms: it grows by 1000 ms per
    failed attempt, is capped at 60000 and is reset to 0 on success. *)
Theorem backoff_bounded_after_boot (e0 : Env) (es : list Env) :
  let d := fst (steps loop es (final_state setup e0 power_on)) in
  0 <= mqttConnectDelay d <= 60000.
Proof.
  cbv zeta. change (backoff_bounded (fst (steps loop es (final_state setup e0 power_on)))).
  apply (steps_keep _ _ _ es loop_backoff).
  apply (setup_backoff e0 power_on). unfold backoff_bounded; cbn; lia.
Qed.

Lemma otaTick_frame e d :
  let d' := final_state otaTick e d in
  sState d' = sState d /\ gpioTrigger d' = gpioTrigger d /\
  manualSetupModeCounter d' = manualSetupModeCounter d /\
  momentarySwitch d' = momentarySwitch d /\
  wifiManagerSetupRunning d' = wifiManagerSetupRunning d.
Proof.
  unfold otaTick. rewrite final_bind. cbn [final_state emit].
  cbv beta. rewrite final_bind. cbn [final_state result ask].
  cbv beta. rewrite final_bind.
  destruct (repeat_otaOnProgress (otaProgress e) e d) as [[r [g Hrg]] _].
  rewrite Hrg.
  unfold final_state, when, skip, get, ask, modify, bind, ret; cbn.
  case_ifs; repeat split.
Qed.

(** In update mode a pass of loop() only calls [ArduinoOTA.handle()] and,
    after the timeout, [ESP.restart()]: the switch is not read, no command
    is processed and nothing is published, so the relay, the lamp state, the
    recorded switch level, the gesture counter and the switch mode are
    unchanged and update mode stays on. *)
Theorem ota_pass_ignores_inputs (e : Env) (d : Dev) (Ho : otaRunning d = true) :
  let d' := final_state loop e d in
  trace loop e d = EvOtaHandle :: (if restart d' then [EvRestart] else []) /\
  otaRunning d' = true /\ pinRelay d' = pinRelay d /\ lState d' = lState d /\
  sState d' = sState d /\ gpioTrigger d' = gpioTrigger d /\
  manualSetupModeCounter d' = manualSetupModeCounter d /\
  momentarySwitch d' = momentarySwitch d /\
  wifiManagerSetupRunning d' = wifiManagerSetupRunning d.
Proof.
  destruct (loop_run e d) as [F T]. cbv zeta in F, T |- *.
  rewrite Ho in F, T. rewrite T, F.
  set (d0 := if mqttLost e then set_mqttConnected false d else d) in *.
  assert (E0 : otaRunning d0 = true /\ pinRelay d0 = pinRelay d /\ lState d0 = lState d /\
               sState d0 = sState d /\ gpioTrigger d0 = gpioTrigger d /\
               manualSetupModeCounter d0 = manualSetupModeCounter d /\
               momentarySwitch d0 = momentarySwitch d /\
               wifiManagerSetupRunning d0 = wifiManagerSetupRunning d)
    by (subst d0; destruct (mqttLost e); repeat split; auto).
  clearbody d0. destruct E0 as (O0 & P0 & L0 & S0 & G0 & C0 & M0 & W0).
  destruct (otaTick_run e d0) as (Tr & _ & O & _ & Rl & Ls).
  destruct (otaTick_frame e d0) as (S & G & C & Mo & W).
  rewrite Tr. repeat split; congruence.
Qed.

(** *** The on-demand portal is started at most once *)

Lemma po_ret {A} (a : A) : portal_once (ret a).
Proof. intros e d. cbn. lia. Qed.

Lemma po_get {A} (f : Dev -> A) : portal_once (get f).
Proof. intros e d. cbn. lia. Qed.

Lemma po_ask {A} (f : Env -> A) : portal_once (ask f).
Proof. intros e d. cbn. lia. Qed.

Lemma po_emit ev : is_start_portal ev = false -> portal_once (emit ev).
Proof. intros H e d. unfold portal_starts. cbn. rewrite H. cbn. lia. Qed.

Lemma po_modify f :
  (forall d, portal_level d <= portal_level (f d))%nat -> portal_once (modify f).
Proof. intros Hf e d. cbn. specialize (Hf d). lia. Qed.

Lemma po_bind {A B} (m : M A) (k : A -> M B) :
  portal_once m -> (forall a, portal_once (k a)) -> portal_once (bind m k).
Proof.
  intros Hm Hk e d. rewrite final_bind, trace_bind, portal_starts_app.
  specialize (Hm e d). specialize (Hk (result m e d) e (final_state m e d)). lia.
Qed.

Lemma po_when b m : portal_once m -> portal_once (when b m).
Proof. intros Hm. destruct b; [exact Hm | apply po_ret]. Qed.

Lemma po_repeatM n m : portal_once m -> portal_once (repeatM n m).
Proof.
  intros Hm. induction n as [|n IH]; cbn.
  - apply po_ret.
  - apply po_bind; [exact Hm | intros _; exact IH].
Qed.

Lemma po_forEach {A} (f : A -> M unit) xs :
  (forall x, portal_once (f x)) -> portal_once (forEach f xs).
Proof.
  intros Hf. induction xs as [|x xs IH]; cbn.
  - apply po_ret.
  - apply po_bind; [apply Hf | intros _; exact IH].
Qed.

Create HintDb dozy_po.

Ltac po_steps :=
  repeat first
    [ solve [eauto with dozy_po]
    | apply po_ret | apply po_get | apply po_ask
    | apply po_when
    | apply po_repeatM
    | apply po_forEach; intro
    | apply po_bind; [| intro; cbv beta]
    | match goal with
      | |- portal_once (if ?b then _ else _) => destruct b
      | |- portal_once (match ?x with _ => _ end) => destruct x
      end
    | apply po_emit; reflexivity
    | apply po_modify; intro; unfold portal_level; cbn;
      destruct (wifiManagerSetupRunning _); cbn; lia ].

(** startWifiManager(onDemand) returns at once while a portal is running;
    otherwise [startConfigPortal()] is followed by the access-point callback,
    which sets wifiManagerSetupRunning. *)
Lemma startWifiManager_po b : portal_once (startWifiManager b).
Proof.
  intros e d. unfold portal_level, portal_starts,
    startWifiManager, wifiManagerSetupStarted, final_state, trace,
    when, skip, get, ask, modify, emit, bind, ret; cbn.
  repeat (first [ match goal with |- context [match configMomentary e with _ => _ end] =>
                     destruct (configMomentary e) end
                 | match goal with |- context [if ?c then _ else _] => case_bool c end ];
          cbn).
  all: lia.
Qed.
#[local] Hint Resolve startWifiManager_po : dozy_po.

Lemma mqttCommunicate_po : portal_once mqttCommunicate.
Proof. unfold mqttCommunicate. po_steps. Qed.
#[local] Hint Resolve mqttCommunicate_po : dozy_po.
Lemma enableL_po : portal_once enableL.
Proof. unfold enableL. po_steps. Qed.
#[local] Hint Resolve enableL_po : dozy_po.
Lemma disableL_po : portal_once disableL.
Proof. unfold disableL. po_steps. Qed.
#[local] Hint Resolve disableL_po : dozy_po.
Lemma mqttCallback_po p : portal_once (mqttCallback p).
Proof. unfold mqttCallback. po_steps. Qed.
#[local] Hint Resolve mqttCallback_po : dozy_po.
Lemma mqttReconnect_po : portal_once mqttReconnect.
Proof. unfold mqttReconnect. po_steps. Qed.
#[local] Hint Resolve mqttReconnect_po : dozy_po.
Lemma gpioLoop_po : portal_once gpioLoop.
Proof. unfold gpioLoop, readSwitch, switchAction, manualSetupActivator. po_steps. Qed.
#[local] Hint Resolve gpioLoop_po : dozy_po.
Lemma wifimanagerLoop_po : portal_once wifimanagerLoop.
Proof.
  unfold wifimanagerLoop, saveParamsCallback, wifiManagerSetupStopped. po_steps.
Qed.
#[local] Hint Resolve wifimanagerLoop_po : dozy_po.
Lemma mqttLoop_po : portal_once mqttLoop.
Proof. unfold mqttLoop. po_steps. Qed.
#[local] Hint Resolve mqttLoop_po : dozy_po.
Lemma otaOnProgress_po : portal_once otaOnProgress.
Proof. unfold otaOnProgress. po_steps. Qed.
#[local] Hint Resolve otaOnProgress_po : dozy_po.
Lemma otaTick_po : portal_once otaTick.
Proof. unfold otaTick. po_steps. Qed.
#[local] Hint Resolve otaTick_po : dozy_po.
Lemma normalTick_po : portal_once normalTick.
Proof. unfold normalTick. po_steps. Qed.
#[local] Hint Resolve normalTick_po : dozy_po.
Lemma loop_po : portal_once loop.
Proof. unfold loop. po_steps. Qed.

Lemma steps_po {A} (m : M A) es :
  portal_once m -> forall d,
  (portal_level d + portal_starts (snd (steps m es d)) <= portal_level (fst (steps m es d)))%nat.
Proof.
  intros Hm. induction es as [|e es IH]; intros d.
  - cbn. lia.
  - rewrite steps_cons. cbn [fst snd]. rewrite portal_starts_app.
    specialize (Hm e d). specialize (IH (final_state m e d)). lia.
Qed.

(** Over any sequence of passes of loop(), the on-demand configuration portal
    ([wifiManager.startConfigPortal()], reached through startWifiManager(true)
    from the switch gesture or the "set" command) is started at most once,
    and not at all when a portal is already running; once started, the portal
    is still marked running at the end. Nothing clears
    wifiManagerSetupRunning, and startWifiManager returns at once while it is
    set, so a later call of startWifiManager(true), such as the gesture
    counter reaching 5 again after wrapping around, starts nothing. *)
Theorem portal_started_at_most_once (es : list Env) (d : Dev) :
  (portal_starts (snd (steps loop es d)) <=
     if wifiManagerSetupRunning d then 0 else 1)%nat /\
  (portal_starts (snd (steps loop es d)) <> 0%nat ->
     wifiManagerSetupRunning (fst (steps loop es d)) = true).
Proof.
  pose proof (steps_po loop es loop_po d) as H.
  unfold portal_level in H.
  destruct (wifiManagerSetupRunning d), (wifiManagerSetupRunning (fst (steps loop es d)));
    split; try lia; intros _; reflexivity.
Qed.

Section Momentary.
Variable m : bool.

Lemma mqttCommunicate_mom :
  respects (fun d => momentarySwitch d = m) (fun _ => True) mqttCommunicate.
Proof. unfold mqttCommunicate. resp_auto. Qed.
#[local] Hint Resolve mqttCommunicate_mom : dozy_resp.
Lemma enableL_mom : respects (fun d => momentarySwitch d = m) (fun _ => True) enableL.
Proof. unfold enableL. resp_auto. Qed.
Lemma disableL_mom : respects (fun d => momentarySwitch d = m) (fun _ => True) disableL.
Proof. unfold disableL. resp_auto. Qed.
#[local] Hint Resolve enableL_mom disableL_mom : dozy_resp.

(** The commands open the portal with [startWifiManager(true)], which does
    not read the configuration file. *)
Lemma mqttCallback_mom p :
  respects (fun d => momentarySwitch d = m) (fun _ => True) (mqttCallback p).
Proof. unfold mqttCallback, startWifiManager, wifiManagerSetupStarted, when. cbn [negb]. resp_auto. Qed.
Lemma mqttReconnect_mom :
  respects (fun d => momentarySwitch d = m) (fun _ => True) mqttReconnect.
Proof. unfold mqttReconnect. resp_auto. Qed.
#[local] Hint Resolve mqttCallback_mom mqttReconnect_mom : dozy_resp.
Lemma mqttLoop_mom : respects (fun d => momentarySwitch d = m) (fun _ => True) mqttLoop.
Proof. unfold mqttLoop. resp_auto. Qed.
End Momentary.

(** A pass of loop() outside update mode in which the portal's
    saveParamsCallback fires ends with [ESP.restart()], the switch mode
    being the one just saved. *)
Theorem save_params_restarts_same_pass (e : Env) (d : Dev) (m : bool)
  (Hcb : wmCallback e = Some (CbSaveParams m)) (Ho : otaRunning d = false) :
  momentarySwitch (final_state loop e d) = m /\
  restart (final_state loop e d) = true /\
  exists l, trace loop e d = l ++ [EvRestart].
Proof.
  destruct (loop_run e d) as [F T]. cbv zeta in F, T. rewrite Ho in F, T.
  set (d0 := if mqttLost e then set_mqttConnected false d else d) in *.
  assert (K : momentarySwitch (final_state normalTick e d0) = m /\
              restart (final_state normalTick e d0) = true).
  { destruct (normalTick_run e d0) as [F2 _]. cbv zeta in F2. rewrite F2.
    set (d1 := final_state gpioLoop e d0).
    destruct (wifimanagerLoop_run e d1) as [W _]. cbv zeta in W.
    assert (K2 : momentarySwitch (final_state wifimanagerLoop e d1) = m /\
                 restart (final_state wifimanagerLoop e d1) = true).
    { rewrite W. unfold after_wm_callback. rewrite Hcb. cbn. case_ifs; auto. }
    destruct (offline (final_state wifimanagerLoop e d1)); [exact K2|].
    destruct K2 as [M1 R1]. split.
    - exact (proj1 (mqttLoop_mom m e _ M1)).
    - assert (P1 : mode_flags false false true (final_state wifimanagerLoop e d1))
        by (unfold mode_flags; split; [discriminate | split; [discriminate | auto]]).
      destruct (mqttLoop_flags false false true e _ P1) as [(_ & _ & R2) _].
      exact (R2 eq_refl). }
  destruct K as [M R]. rewrite F. split; [exact M|]. split; [exact R|].
  rewrite T, R. eexists; reflexivity.
Qed.

Section Connection.
Variable c : bool.

Lemma mqttCommunicate_conn :
  respects (fun d => mqttConnected d = c) (fun _ => True) mqttCommunicate.
Proof. unfold mqttCommunicate. resp_auto. Qed.
#[local] Hint Resolve mqttCommunicate_conn : dozy_resp.
Lemma enableL_conn : respects (fun d => mqttConnected d = c) (fun _ => True) enableL.
Proof. unfold enableL. resp_auto. Qed.
Lemma disableL_conn : respects (fun d => mqttConnected d = c) (fun _ => True) disableL.
Proof. unfold disableL. resp_auto. Qed.
Lemma startWifiManager_conn b :
  respects (fun d => mqttConnected d = c) (fun _ => True) (startWifiManager b).
Proof. unfold startWifiManager, wifiManagerSetupStarted. resp_auto. Qed.
#[local] Hint Resolve enableL_conn disableL_conn startWifiManager_conn : dozy_resp.
Lemma gpioLoop_conn : respects (fun d => mqttConnected d = c) (fun _ => True) gpioLoop.
Proof. unfold gpioLoop, readSwitch, switchAction, manualSetupActivator. resp_auto. Qed.
Lemma wifimanagerLoop_conn :
  respects (fun d => mqttConnected d = c) (fun _ => True) wifimanagerLoop.
Proof.
  unfold wifimanagerLoop, saveParamsCallback, wifiManagerSetupStarted,
    wifiManagerSetupStopped. resp_auto.
Qed.
End Connection.

Lemma restart_flags d : restart d = true -> mode_flags false false true d.
Proof. intros R. unfold mode_flags. split; [discriminate | split; [discriminate | auto]]. Qed.

Lemma mqttLoop_connected e d (Hc : mqttConnected d = true) :
  final_state mqttLoop e d = final_state (forEach mqttCallback (inbound e)) e d.
Proof.
  unfold mqttLoop. rewrite final_bind. cbn [final_state result get]. rewrite Hc.
  cbv beta. rewrite final_bind. cbn [final_state result ret when].
  rewrite final_bind. cbn [final_state result emit].
  rewrite final_bind. reflexivity.
Qed.

Lemma mqttCallback_reset p e d
  (Hr : startsWith (payloadCommand p) CMD_RESET = true) :
  restart (final_state (mqttCallback p) e d) = true.
Proof.
  unfold mqttCallback. cbv zeta. rewrite final_bind. cbv beta.
  rewrite final_bind. cbv beta. rewrite Hr.
  match goal with |- restart (final_state ?k e (final_state ?w e ?x)) = true =>
    assert (K : respects (mode_flags false false true) (fun _ => True) k)
      by (unfold mode_flags; resp_intuition);
    assert (P1 : mode_flags false false true (final_state w e x))
      by (apply restart_flags; reflexivity)
  end.
  destruct (K e _ P1) as [(_ & _ & R) _]. exact (R eq_refl).
Qed.

Lemma forEach_callback_reset p e
  (Hr : startsWith (payloadCommand p) CMD_RESET = true) :
  forall l d, In p l -> restart (final_state (forEach mqttCallback l) e d) = true.
Proof.
  induction l as [|x l IH]; intros d Hin; [destruct Hin|].
  cbn [forEach]. rewrite final_bind. cbv beta.
  destruct Hin as [->|Hin]; [|apply IH; exact Hin].
  assert (P1 : mode_flags false false true (final_state (mqttCallback p) e d))
    by (apply restart_flags, mqttCallback_reset; exact Hr).
  assert (K : respects (mode_flags false false true) (fun _ => True) (forEach mqttCallback l))
    by (apply respects_forEach; intro; apply mqttCallback_flags).
  destruct (K e _ P1) as [(_ & _ & R) _]. exact (R eq_refl).
Qed.

(** With WiFi up and the broker session alive, a command whose text starts
    with "rst", received in a pass of loop() outside update mode, makes that
    same pass end with [ESP.restart()], whatever the other commands it
    receives. *)
Theorem reset_command_restarts_same_pass (e : Env) (d : Dev) (p : string)
  (Ho : otaRunning d = false) (Hl : mqttLost e = false) (Hc : mqttConnected d = true)
  (Hw : wifiConnected e = true) (Hin : In p (inbound e))
  (Hr : startsWith (payloadCommand p) CMD_RESET = true) :
  restart (final_state loop e d) = true /\
  exists l, trace loop e d = l ++ [EvRestart].
Proof.
  destruct (loop_run e d) as [F T]. cbv zeta in F, T.
  rewrite Ho, Hl in F, T. cbv iota in F, T.
  assert (K : restart (final_state normalTick e d) = true).
  { destruct (normalTick_run e d) as [F2 _]. cbv zeta in F2. rewrite F2.
    set (d1 := final_state gpioLoop e d).
    assert (C1 : mqttConnected d1 = true) by exact (proj1 (gpioLoop_conn true e d Hc)).
    destruct (wifimanagerLoop_run e d1) as [W _]. cbv zeta in W.
    assert (O2 : offline (final_state wifimanagerLoop e d1) = false)
      by (rewrite W; cbn; rewrite Hw; reflexivity).
    assert (C2 : mqttConnected (final_state wifimanagerLoop e d1) = true)
      by exact (proj1 (wifimanagerLoop_conn true e d1 C1)).
    rewrite O2, (mqttLoop_connected e _ C2).
    apply (forEach_callback_reset p e Hr). exact Hin. }
  rewrite F. split; [exact K|]. rewrite T, K. eexists; reflexivity.
Qed.

Lemma mqttCommunicate_no_session : respects (fun _ => True) (fun ev => mqtt_session_event ev = false) mqttCommunicate.
Proof. unfold mqttCommunicate. resp_auto. Qed.
#[local] Hint Resolve mqttCommunicate_no_session : dozy_resp.
Lemma enableL_no_session : respects (fun _ => True) (fun ev => mqtt_session_event ev = false) enableL.
Proof. unfold enableL. resp_auto. Qed.
Lemma disableL_no_session : respects (fun _ => True) (fun ev => mqtt_session_event ev = false) disableL.
Proof. unfold disableL. resp_auto. Qed.
Lemma startWifiManager_no_session b :
  respects (fun _ => True) (fun ev => mqtt_session_event ev = false) (startWifiManager b).
Proof. unfold startWifiManager, wifiManagerSetupStarted. resp_auto. Qed.
#[local] Hint Resolve enableL_no_session disableL_no_session startWifiManager_no_session
  : dozy_resp.
Lemma gpioLoop_no_session : respects (fun _ => True) (fun ev => mqtt_session_event ev = false) gpioLoop.
Proof. unfold gpioLoop, readSwitch, switchAction, manualSetupActivator. resp_auto. Qed.

(** When WiFi is down at a pass of loop() outside update mode, that pass
    neither connects to the broker, nor subscribes, nor calls
    [mqttClient.loop()]: wifimanagerLoop() sets [offline] and mqttLoop() is
    skipped. *)
Theorem no_broker_session_without_wifi (e : Env) (d : Dev)
  (Ho : otaRunning d = false) (Hw : wifiConnected e = false) :
  ~ In EvMqttConnect (trace loop e d) /\ ~ In EvMqttSubscribe (trace loop e d) /\
  ~ In EvMqttLoop (trace loop e d).
Proof.
  assert (H : Forall (fun ev => mqtt_session_event ev = false) (trace loop e d)).
  { destruct (loop_run e d) as [_ T]. cbv zeta in T. rewrite Ho in T. rewrite T.
    set (d0 := if mqttLost e then set_mqttConnected false d else d).
    destruct (normalTick_run e d0) as [_ T2]. cbv zeta in T2. rewrite T2.
    destruct (wifimanagerLoop_run e (final_state gpioLoop e d0)) as [W TW].
    cbv zeta in W, TW.
    rewrite W, TW. cbn [offline set_offline]. rewrite Hw. cbn [negb].
    apply Forall_app; split; [apply Forall_app; split; [|apply Forall_app; split]|].
    - exact (proj2 (gpioLoop_no_session e d0 I)).
    - constructor; [reflexivity|]. destruct (_ && _); repeat constructor.
    - constructor.
    - destruct (restart _); repeat constructor. }
  rewrite Forall_forall in H.
  split; [|split]; intros Hin; specialize (H _ Hin); discriminate.
Qed.

(** At power-on, setup() restores the switch mode from /config.json (push
    button mode only when the file says so), records the current switch
    level, leaves the relay off and calls WiFiManager's autoConnect(). When
    autoConnect() cannot join the saved network it opens the portal and calls
    the access-point callback wifiManagerSetupStarted(), which attaches the
    1000 ms LED ticker, sets wifiManagerSetupRunning and records millis() as
    the portal start; otherwise no portal is running. A first gpioLoop()
    that reads the same switch level then does nothing. *)
Theorem setup_boot (e0 e1 : Env) (Hs : switchLow e1 = switchLow e0) :
  let d := final_state setup e0 power_on in
  trace setup e0 power_on =
    EvAutoConnect :: (if wifiConnected e0 then [] else [EvTickerAttach 1000]) /\
  wifiManagerSetupRunning d = negb (wifiConnected e0) /\
  (wifiConnected e0 = false -> wifiManagerSetupStart d = millis e0) /\
  momentarySwitch d = match configMomentary e0 with Some m => m | None => false end /\
  pinRelay d = LOW /\ lState d = false /\ gpioTrigger d = false /\
  manualSetupModeCounter d = 0 /\
  final_state gpioLoop e1 d = d /\ trace gpioLoop e1 d = [].
Proof.
  cbv zeta.
  set (d0 := set_sState (switchLow e0)
               (set_momentarySwitch
                  (match configMomentary e0 with Some m => m | None => false end)
                  (set_wifiManagerSetupStart
                     (if wifiConnected e0 then wifiManagerSetupStart power_on else millis e0)
                     (set_wifiManagerSetupRunning (negb (wifiConnected e0))
                        (set_pinGreen HIGH (set_pinRed HIGH power_on)))))).
  assert (E : final_state setup e0 power_on = d0)
    by (destruct e0 as [t0 sw0 [b|] cb0 [|] l0 c0 i0 n0]; reflexivity).
  assert (Tr : trace setup e0 power_on =
                 EvAutoConnect :: (if wifiConnected e0 then [] else [EvTickerAttach 1000]))
    by (destruct e0 as [t0 sw0 [b|] cb0 [|] l0 c0 i0 n0]; reflexivity).
  rewrite E, Tr. destruct (gpioLoop_run e1 d0) as [G T].
  cbv zeta in G, T. rewrite G, T, Hs. subst d0.
  destruct (switchLow e0), (configMomentary e0) as [[]|], (wifiConnected e0);
    repeat split; intros; discriminate.
Qed.

Lemma mqttLoop_connected_trace e d (Hc : mqttConnected d = true) :
  trace mqttLoop e d = EvMqttLoop :: trace (forEach mqttCallback (inbound e)) e d.
Proof.
  unfold mqttLoop. rewrite trace_bind. cbn [trace result get app]. rewrite Hc.
  cbv beta. rewrite trace_bind. cbn [trace result final_state ret when app].
  rewrite trace_bind. cbn [trace result final_state emit app].
  rewrite trace_bind. reflexivity.
Qed.

Lemma mqttCallback_keeps_ota p e d :
  otaRunning d = true -> otaStart d = millis e ->
  otaRunning (final_state (mqttCallback p) e d) = true /\
  otaStart (final_state (mqttCallback p) e d) = millis e.
Proof.
  intros Ho Ht.
  unfold mqttCallback, startWifiManager, wifiManagerSetupStarted, enableL, disableL, mqttCommunicate,
    final_state, when, skip, get, ask, modify, emit, bind, ret.
  cbn. case_ifs; cbn; auto.
Qed.

Lemma mqttCallback_ota p e d
  (Hota : startsWith (payloadCommand p) CMD_OTA = true) :
  otaRunning (final_state (mqttCallback p) e d) = true /\
  otaStart (final_state (mqttCallback p) e d) = millis e /\
  In EvOtaBegin (trace (mqttCallback p) e d).
Proof.
  unfold mqttCallback, startWifiManager, wifiManagerSetupStarted, enableL, disableL, mqttCommunicate,
    final_state, trace, when, skip, get, ask, modify, emit, bind, ret.
  cbn. rewrite Hota. case_ifs; cbn; rewrite ?in_app_iff; cbn; auto 10.
Qed.

Lemma forEach_keeps_ota e : forall l d,
  otaRunning d = true -> otaStart d = millis e ->
  otaRunning (final_state (forEach mqttCallback l) e d) = true /\
  otaStart (final_state (forEach mqttCallback l) e d) = millis e.
Proof.
  induction l as [|x l IH]; intros d Ho Ht; [split; assumption|].
  cbn [forEach]. rewrite final_bind. cbv beta.
  destruct (mqttCallback_keeps_ota x e d Ho Ht) as [Ho' Ht'].
  exact (IH _ Ho' Ht').
Qed.

Lemma forEach_callback_ota p e
  (Hota : startsWith (payloadCommand p) CMD_OTA = true) :
  forall l d, In p l ->
  otaRunning (final_state (forEach mqttCallback l) e d) = true /\
  otaStart (final_state (forEach mqttCallback l) e d) = millis e /\
  In EvOtaBegin (trace (forEach mqttCallback l) e d).
Proof.
  induction l as [|x l IH]; intros d Hin; [destruct Hin|].
  cbn [forEach]. rewrite final_bind, trace_bind. cbv beta. rewrite in_app_iff.
  destruct Hin as [->|Hin].
  - destruct (mqttCallback_ota p e d Hota) as (Ho & Ht & Hb).
    destruct (forEach_keeps_ota e l _ Ho Ht) as [Ho' Ht'].
    auto.
  - destruct (IH (final_state (mqttCallback x) e d) Hin) as (Ho & Ht & Hb). auto.
Qed.

(** With WiFi up and the broker session alive, a command whose text starts
    with "ota", received in a pass of loop() outside update mode, calls
    [ArduinoOTA.begin()] and leaves the device in update mode, its timeout
    counted from the [millis()] of that pass, whatever the other commands
    the pass receives. *)
Theorem ota_command_enters_update_mode (e : Env) (d : Dev) (p : string)
  (Ho : otaRunning d = false) (Hl : mqttLost e = false) (Hc : mqttConnected d = true)
  (Hw : wifiConnected e = true) (Hin : In p (inbound e))
  (Hota : startsWith (payloadCommand p) CMD_OTA = true) :
  otaRunning (final_state loop e d) = true /\
  otaStart (final_state loop e d) = millis e /\
  In EvOtaBegin (trace loop e d).
Proof.
  destruct (loop_run e d) as [F T]. cbv zeta in F, T.
  rewrite Ho, Hl in F, T. cbv iota in F, T. rewrite F, T, in_app_iff.
  destruct (normalTick_run e d) as [F2 T2]. cbv zeta in F2, T2. rewrite F2, T2.
  set (d1 := final_state gpioLoop e d).
  assert (C1 : mqttConnected d1 = true) by exact (proj1 (gpioLoop_conn true e d Hc)).
  destruct (wifimanagerLoop_run e d1) as [W _]. cbv zeta in W.
  assert (O2 : offline (final_state wifimanagerLoop e d1) = false)
    by (rewrite W; cbn; rewrite Hw; reflexivity).
  assert (C2 : mqttConnected (final_state wifimanagerLoop e d1) = true)
    by exact (proj1 (wifimanagerLoop_conn true e d1 C1)).
  rewrite O2, (mqttLoop_connected e _ C2), (mqttLoop_connected_trace e _ C2).
  destruct (forEach_callback_ota p e Hota (inbound e)
              (final_state wifimanagerLoop e d1) Hin) as (Or & Os & Ob).
  split; [exact Or|]. split; [exact Os|].
  left. rewrite !in_app_iff. right. right. right. exact Ob.
Qed.

Lemma ota_pass_ignores_inputs_witness :
  let e := mkEnv 5000 true None (Some (CbSaveParams false)) true true true
                 ["1"%string; "rst"%string] 3 in
  let d := set_otaStart 4000 (set_otaRunning true power_on) in
  otaRunning d = true /\ trace loop e d = [EvOtaHandle] /\
  sState (final_state loop e d) = sState d.
Proof.
  intros e d. split; [reflexivity|].
  destruct (ota_pass_ignores_inputs e d) as (T & _ & _ & _ & S & _); [reflexivity|].
  split; [rewrite T; vm_compute; reflexivity | exact S].
Defined.

Lemma save_params_restarts_same_pass_witness :
  let e := mkEnv 1000 false None (Some (CbSaveParams true)) true false false [] 0 in
  wmCallback e = Some (CbSaveParams true) /\ otaRunning power_on = false /\
  momentarySwitch (final_state loop e power_on) = true.
Proof.
  intros e. split; [reflexivity|]. split; [reflexivity|].
  refine (proj1 (save_params_restarts_same_pass e power_on true _ _)); reflexivity.
Defined.

Lemma reset_command_restarts_same_pass_witness :
  let e := mkEnv 2000 false None None true false false ["on"%string; "rst"%string] 0 in
  let d := set_mqttConnected true (set_offline false power_on) in
  In "rst"%string (inbound e) /\ restart (final_state loop e d) = true.
Proof.
  intros e d. split; [simpl; auto|].
  refine (proj1 (reset_command_restarts_same_pass e d "rst"%string _ _ _ _ _ _));
    try reflexivity.
  simpl; auto.
Defined.

Lemma no_broker_session_without_wifi_witness :
  let e := mkEnv 1000 true None None false false true ["1"%string] 0 in
  let d := set_mqttConnected true (set_offline false power_on) in
  otaRunning d = false /\ wifiConnected e = false /\ ~ In EvMqttLoop (trace loop e d).
Proof.
  intros e d. split; [reflexivity|]. split; [reflexivity|].
  refine (proj2 (proj2 (no_broker_session_without_wifi e d _ _))); reflexivity.
Defined.

Lemma setup_boot_witness :
  let e0 := mkEnv 0 true (Some true) None false false false [] 0 in
  let e1 := mkEnv 20 true None None true false false [] 0 in
  switchLow e1 = switchLow e0 /\
  trace setup e0 power_on = [EvAutoConnect; EvTickerAttach 1000] /\
  trace gpioLoop e1 (final_state setup e0 power_on) = [].
Proof.
  intros e0 e1. split; [reflexivity|].
  destruct (setup_boot e0 e1) as (Tr & _ & _ & _ & _ & _ & _ & _ & _ & T); [reflexivity|].
  split; [exact Tr | exact T].
Defined.

Lemma ota_command_enters_update_mode_witness :
  let e := mkEnv 7000 false None None true false false ["ota"%string; "0"%string] 0 in
  let d := set_mqttConnected true (set_offline false power_on) in
  In "ota"%string (inbound e) /\ otaStart (final_state loop e d) = 7000.
Proof.
  intros e d. split; [simpl; auto|].
  refine (proj1 (proj2 (ota_command_enters_update_mode e d "ota"%string _ _ _ _ _ _)));
    try reflexivity.
  simpl; auto.
Defined.
